(** * Invoice generator: reference resolution, invoice assembly, enrichment,
      pagination and template composition

    A shallow embedding of [invoice_generator.py] (class [InvoiceGenerator]).

    - Python values are the inductive [value]; a [dict] is an association list
      in insertion order, looked up by its first binding of a key.
    - A Python [str] is a [string] holding its UTF-8 encoding; the library
      routines below are exact on ASCII text and pass other bytes through.
    - A Python [float] is an IEEE-754 binary64 number, [spec_float] at
      precision 53 and maximal exponent 1024.
    - A raised exception is the [Raise] result of the error monad [res].
    - The files of the data directory and of the template directory are the
      fields of [world], already parsed by the record loaders. *)

From Stdlib Require Import ZArith List String Ascii Bool Lia ZifyNat.
From Stdlib Require Import Numbers.DecimalString Numbers.DecimalZ.
From Stdlib Require Import Floats.SpecFloat.
Import ListNotations.
Open Scope list_scope.
Open Scope string_scope.

(** ** Exceptions and the error monad *)

Inductive exn : Type :=
| ValueError
| TypeError
| AttributeError
| KeyError
| OverflowError
| FileNotFoundError.

Inductive res (A : Type) : Type :=
| Ok (a : A)
| Raise (e : exn).

Arguments Ok {A} a.
Arguments Raise {A} e.

Definition bind {A B : Type} (m : res A) (k : A -> res B) : res B :=
  match m with
  | Ok a => k a
  | Raise e => Raise e
  end.

Notation "x <- m ;; k" := (bind m (fun x => k))
  (at level 61, m at next level, right associativity).

(** ** Floats *)

Definition float : Type := spec_float.
Definition prec : Z := 53.
Definition emax : Z := 1024.

Definition fzero : float := S754_zero false.
Definition fmul : float -> float -> float := SFmul prec emax.
Definition fadd : float -> float -> float := SFadd prec emax.

(** [float(z)] for an [int]: rounded to nearest-even, [OverflowError] when
    the integer is too large for a finite float. *)
Definition float_of_int (z : Z) : res float :=
  match binary_normalize prec emax z 0 false with
  | S754_infinity _ => Raise OverflowError
  | f => Ok f
  end.

(** ** Values *)

#[local] Set Warnings "-register-all".

Inductive value : Type :=
| VNone
| VBool (b : bool)
| VInt (z : Z)
| VFloat (f : float)
| VStr (s : string)
| VList (l : list value)
| VDict (d : list (string * value)).

Definition dict : Type := list (string * value).

Fixpoint lookup (d : dict) (k : string) : option value :=
  match d with
  | [] => None
  | (k', v) :: d' => if String.eqb k' k then Some v else lookup d' k
  end.

(** [d.get(k)] *)
Definition get (d : dict) (k : string) : value :=
  match lookup d k with
  | Some v => v
  | None => VNone
  end.

(** [d.get(k, dflt)] *)
Definition get_default (d : dict) (k : string) (dflt : value) : value :=
  match lookup d k with
  | Some v => v
  | None => dflt
  end.

(** [x.get(k)] and [x.get(k, dflt)] on an arbitrary object: only a dict has
    the method. *)
Definition obj_get (x : value) (k : string) : res value :=
  match x with
  | VDict d => Ok (get d k)
  | _ => Raise AttributeError
  end.

Definition obj_get_default (x : value) (k : string) (dflt : value) : res value :=
  match x with
  | VDict d => Ok (get_default d k dflt)
  | _ => Raise AttributeError
  end.

(** [for item in x]: the items a [for] loop visits. *)
Definition py_iter (x : value) : res (list value) :=
  match x with
  | VList l => Ok l
  | VDict d => Ok (map (fun kv => VStr (fst kv)) d)
  | VStr s => Ok (map (fun c => VStr (String c "")) (list_ascii_of_string s))
  | _ => Raise TypeError
  end.

(** ** Characters and decimal numerals *)

Definition dquote : string := String (ascii_of_nat 34) "".
Definition nl : string := String (ascii_of_nat 10) "".

Definition is_digit (c : ascii) : bool :=
  let n := nat_of_ascii c in (48 <=? n)%nat && (n <=? 57)%nat.

Definition digit_val (c : ascii) : Z := Z.of_nat (nat_of_ascii c - 48).

(** Whitespace that [int] and [float] strip: space, \t, \n, \v, \f, \r. *)
Definition is_space (c : ascii) : bool :=
  let n := nat_of_ascii c in
  (n =? 32)%nat || ((9 <=? n)%nat && (n <=? 13)%nat).

Definition lower_char (c : ascii) : ascii :=
  let n := nat_of_ascii c in
  if (65 <=? n)%nat && (n <=? 90)%nat then ascii_of_nat (n + 32) else c.

Fixpoint lower (s : string) : string :=
  match s with
  | "" => ""
  | String c s' => String (lower_char c) (lower s')
  end.

Definition str_of_Z (z : Z) : string := NilZero.string_of_int (Z.to_int z).

Fixpoint lstrip (l : list ascii) : list ascii :=
  match l with
  | [] => []
  | c :: l' => if is_space c then lstrip l' else l
  end.

Definition strip (l : list ascii) : list ascii :=
  rev (lstrip (rev (lstrip l))).

(** A leading sign: [(negative, rest)]. *)
Definition split_sign (l : list ascii) : bool * list ascii :=
  match l with
  | "-"%char :: l' => (true, l')
  | "+"%char :: l' => (false, l')
  | _ => (false, l)
  end.

(** Decimal digits in which single underscores may separate digits. *)
Fixpoint digits_us (l : list ascii) (acc : Z) (prev_digit : bool) : option Z :=
  match l with
  | [] => if prev_digit then Some acc else None
  | c :: l' =>
      if is_digit c then digits_us l' (10 * acc + digit_val c)%Z true
      else if Ascii.eqb c "_" && prev_digit then digits_us l' acc false
      else None
  end.

(** [int(s)] for a [str], base 10, without the limit on the number of digits
    that some interpreters impose. *)
Definition int_of_string (s : string) : res Z :=
  let (neg, ds) := split_sign (strip (list_ascii_of_string s)) in
  match digits_us ds 0%Z false with
  | Some n => Ok (if neg then (- n)%Z else n)
  | None => Raise ValueError
  end.

(** ** Conversions between floats and decimal text *)

(** Non-negative rationals as a numerator over a positive denominator. *)
Definition rat : Type := (Z * Z)%type.

Definition rat_pow (b k : Z) : rat :=
  if (0 <=? k)%Z then (b ^ k, 1)%Z else (1, b ^ (- k))%Z.

Definition rat_mul (a b : rat) : rat := (fst a * fst b, snd a * snd b)%Z.
Definition rat_of_Z (z : Z) : rat := (z, 1%Z).
Definition rat_compare (a b : rat) : comparison :=
  (fst a * snd b ?= fst b * snd a)%Z.
Definition rat_floor (a : rat) : Z := (fst a / snd a)%Z.

(** The value [m * 2^e] of a finite float. *)
Definition rat_of_finite (m : positive) (e : Z) : rat :=
  rat_mul (rat_of_Z (Zpos m)) (rat_pow 2 e).

(** Round a non-negative rational to the nearest integer, ties to even. *)
Definition round_half_even (a : rat) : Z :=
  let q := (fst a / snd a)%Z in
  let r := (fst a mod snd a)%Z in
  match (2 * r ?= snd a)%Z with
  | Lt => q
  | Gt => (q + 1)%Z
  | Eq => if Z.even q then q else (q + 1)%Z
  end.

(** The float nearest to [mant * 10^scale] ([mant >= 0]), ties to even, with
    the sign [neg]; an overflow gives an infinity. *)
Definition float_of_decimal (neg : bool) (mant scale : Z) : float :=
  match mant with
  | Zpos p =>
      if (0 <=? scale)%Z then
        binary_normalize prec emax
          (if neg then Zneg p * 10 ^ scale else Zpos p * 10 ^ scale)%Z 0 false
      else
        let den := (10 ^ (- scale))%Z in
        let t := (64 + Z.log2 den)%Z in
        let num := (Zpos p * 2 ^ t)%Z in
        let q := (num / den)%Z in
        let r := (num mod den)%Z in
        let loc :=
          if (r =? 0)%Z then loc_Exact else loc_Inexact (2 * r ?= den)%Z in
        binary_round_aux prec emax neg q (- t) loc
  | _ => S754_zero neg
  end.

(** A run of decimal digits: its value, its length and the rest. *)
Fixpoint span_digits (l : list ascii) (acc : Z) (n : nat)
  : Z * nat * list ascii :=
  match l with
  | c :: l' =>
      if is_digit c then span_digits l' (10 * acc + digit_val c)%Z (S n)
      else (acc, n, l)
  | [] => (acc, n, [])
  end.

(** Underscores are accepted only between two digits, and then ignored. *)
Fixpoint drop_underscores (l : list ascii) (prev_digit : bool)
  : option (list ascii) :=
  match l with
  | [] => Some []
  | c :: l' =>
      if Ascii.eqb c "_" then
        match l' with
        | d :: _ =>
            if prev_digit && is_digit d then drop_underscores l' false
            else None
        | [] => None
        end
      else option_map (cons c) (drop_underscores l' (is_digit c))
  end.

(** The optional exponent part [e[+-]digits] that must end the numeral. *)
Definition parse_exponent (l : list ascii) : option Z :=
  match l with
  | [] => Some 0%Z
  | c :: l' =>
      if Ascii.eqb (lower_char c) "e" then
        let (neg, ds) := split_sign l' in
        match span_digits ds 0%Z 0 with
        | (_, O, _) => None
        | (x, _, []) => Some (if neg then (- x)%Z else x)
        | _ => None
        end
      else None
  end.

(** [float(s)] for a [str]. *)
Definition float_of_string (s : string) : res float :=
  match drop_underscores (strip (list_ascii_of_string s)) false with
  | None => Raise ValueError
  | Some l =>
      let (neg, body) := split_sign l in
      let word := lower (string_of_list_ascii body) in
      if String.eqb word "inf" || String.eqb word "infinity" then
        Ok (S754_infinity neg)
      else if String.eqb word "nan" then Ok S754_nan
      else
        let '(ip, n1, rest) := span_digits body 0%Z 0 in
        let '(mant, n2, rest') :=
          match rest with
          | "."%char :: fr =>
              let '(m, n, r) := span_digits fr ip 0 in (m, n, r)
          | _ => (ip, 0, rest)
          end in
        match (n1 + n2)%nat, parse_exponent rest' with
        | S _, Some x => Ok (float_of_decimal neg mant (x - Z.of_nat n2))
        | _, _ => Raise ValueError
        end
  end.

(** [int(f)] for a [float]: truncation towards zero. *)
Definition int_of_float (f : float) : res Z :=
  match f with
  | S754_zero _ => Ok 0%Z
  | S754_nan => Raise ValueError
  | S754_infinity _ => Raise OverflowError
  | S754_finite s m e =>
      let n := rat_floor (rat_of_finite m e) in
      Ok (if s then (- n)%Z else n)
  end.

Definition sign_str (s : bool) : string := if s then "-" else "".

(** Commas between groups of three digits, counted from the right. *)
Fixpoint group_rev (l : list ascii) (n : nat) : list ascii :=
  match l with
  | [] => []
  | c :: l' =>
      match n with
      | 3 => ","%char :: c :: group_rev l' 1
      | _ => c :: group_rev l' (S n)
      end
  end.

Definition group3 (digits : string) : string :=
  string_of_list_ascii (rev (group_rev (rev (list_ascii_of_string digits)) 0)).

Definition two_digits (n : Z) : string :=
  if (n <? 10)%Z then "0" ++ str_of_Z n else str_of_Z n.

(** Hundredths of a non-negative finite amount as [1,234.56]. *)
Definition money_of_hundredths (n : Z) : string :=
  group3 (str_of_Z (n / 100)%Z) ++ "." ++ two_digits (n mod 100)%Z.

(** The format specification [,.2f]. *)
Definition format_2f (f : float) : string :=
  match f with
  | S754_nan => "nan"
  | S754_infinity s => sign_str s ++ "inf"
  | S754_zero s => sign_str s ++ "0.00"
  | S754_finite s m e =>
      sign_str s ++
      money_of_hundredths
        (round_half_even (rat_mul (rat_of_finite m e) (rat_of_Z 100)))
  end.

(** *** Shortest decimal text that reads back as the same float *)

Definition rat_leb (a b : rat) : bool :=
  match rat_compare a b with Gt => false | _ => true end.
Definition rat_ltb (a b : rat) : bool :=
  match rat_compare a b with Lt => true | _ => false end.

(** Whether the rational [c] rounds to the float [m * 2^e]. *)
Definition rounds_to (m : positive) (e : Z) (c : rat) : bool :=
  let high := rat_of_finite (2 * m + 1) (e - 1) in
  let low :=
    if (Zpos m =? 2 ^ 52)%Z && (-1074 <? e)%Z
    then rat_of_finite (4 * m - 1) (e - 2)
    else rat_of_finite (2 * m - 1) (e - 1) in
  if Z.even (Zpos m) then rat_leb low c && rat_leb c high
  else rat_ltb low c && rat_ltb c high.

(** [floor (log10 (m * 2^e))] *)
Definition decimal_exponent (m : positive) (e : Z) : Z :=
  let x := rat_of_finite m e in
  if rat_leb (rat_of_Z 1) x then
    Z.of_nat (String.length (str_of_Z (rat_floor x))) - 1
  else
    let c := ((snd x + fst x - 1) / fst x)%Z in
    - Z.of_nat (String.length (str_of_Z (c - 1))).

(** The digits [d] and exponent [k] of the shortest [d * 10^k] that rounds to
    the float, the nearest one when several are as short; [n] digits are
    tried first and [fuel] more after them. *)
Fixpoint shortest_from (fuel : nat) (n : Z) (m : positive) (e e10 : Z)
  : Z * Z :=
  let k := (e10 - n + 1)%Z in
  let x := rat_of_finite m e in
  let lo := rat_floor (rat_mul x (rat_pow 10 (- k))) in
  let hi := (lo + 1)%Z in
  let at_k d := rat_mul (rat_of_Z d) (rat_pow 10 k) in
  match rounds_to m e (at_k lo), rounds_to m e (at_k hi) with
  | true, true =>
      match rat_compare (rat_mul (rat_of_Z 2) x) (at_k (2 * lo + 1)%Z) with
      | Lt => (lo, k)
      | Gt => (hi, k)
      | Eq => if Z.even lo then (lo, k) else (hi, k)
      end
  | true, false => (lo, k)
  | false, true => (hi, k)
  | false, false =>
      match fuel with
      | S fuel' => shortest_from fuel' (n + 1)%Z m e e10
      | O => (lo, k)
      end
  end.

Fixpoint strip_zeros (fuel : nat) (d k : Z) : Z * Z :=
  match fuel with
  | S fuel' =>
      if (0 <? d)%Z && (d mod 10 =? 0)%Z
      then strip_zeros fuel' (d / 10)%Z (k + 1)%Z
      else (d, k)
  | O => (d, k)
  end.

Fixpoint zeros (n : nat) : string :=
  match n with
  | O => ""
  | S n' => "0" ++ zeros n'
  end.

(** [repr] of a finite non-zero magnitude from its digits and the position
    [decpt] of the decimal point relative to their start. *)
Definition repr_digits (digits : string) (decpt : Z) : string :=
  let n := Z.of_nat (String.length digits) in
  if (decpt <=? -4)%Z || (16 <? decpt)%Z then
    let x := (decpt - 1)%Z in
    let mant :=
      match digits with
      | String c "" => String c ""
      | String c rest => String c ("." ++ rest)
      | "" => ""
      end in
    mant ++ "e" ++ (if (x <? 0)%Z then "-" else "+") ++
    (if (Z.abs x <? 10)%Z then "0" else "") ++ str_of_Z (Z.abs x)
  else if (decpt <=? 0)%Z then
    "0." ++ zeros (Z.to_nat (- decpt)) ++ digits
  else if (n <=? decpt)%Z then
    digits ++ zeros (Z.to_nat (decpt - n)) ++ ".0"
  else
    substring 0 (Z.to_nat decpt) digits ++ "." ++
    substring (Z.to_nat decpt) (Z.to_nat (n - decpt)) digits.

(** [repr(f)] and [str(f)] for a [float]. *)
Definition float_repr (f : float) : string :=
  match f with
  | S754_nan => "nan"
  | S754_infinity s => sign_str s ++ "inf"
  | S754_zero s => sign_str s ++ "0.0"
  | S754_finite s m e =>
      let (d0, k0) := shortest_from 16 1 m e (decimal_exponent m e) in
      let (d, k) := strip_zeros 20 d0 k0 in
      let digits := str_of_Z d in
      sign_str s ++ repr_digits digits (Z.of_nat (String.length digits) + k)
  end.

(** ** [repr], [str], [int], [float] and [str.replace] *)

Fixpoint contains_char (c : ascii) (s : string) : bool :=
  match s with
  | "" => false
  | String c' s' => Ascii.eqb c c' || contains_char c s'
  end.

Definition hex_digit (n : nat) : ascii :=
  if (n <? 10)%nat then ascii_of_nat (48 + n) else ascii_of_nat (87 + n).

Definition escape_char (quote c : ascii) : string :=
  let n := nat_of_ascii c in
  if Ascii.eqb c quote || Ascii.eqb c "\" then String "\" (String c "")
  else if (n =? 9)%nat then "\t"
  else if (n =? 10)%nat then "\n"
  else if (n =? 13)%nat then "\r"
  else if (n <? 32)%nat || (n =? 127)%nat then
    "\x" ++ String (hex_digit (n / 16)) (String (hex_digit (n mod 16)) "")
  else String c "".

Fixpoint escape (quote : ascii) (s : string) : string :=
  match s with
  | "" => ""
  | String c s' => escape_char quote c ++ escape quote s'
  end.

(** [repr(s)] for a [str]: single quotes unless the text has one and no
    double quote. *)
Definition str_repr (s : string) : string :=
  let quote :=
    if contains_char "'" s && negb (contains_char (ascii_of_nat 34) s)
    then ascii_of_nat 34 else "'"%char in
  String quote (escape quote s ++ String quote "").

Fixpoint py_repr (v : value) : string :=
  match v with
  | VNone => "None"
  | VBool b => if b then "True" else "False"
  | VInt z => str_of_Z z
  | VFloat f => float_repr f
  | VStr s => str_repr s
  | VList l => "[" ++ String.concat ", " (map py_repr l) ++ "]"
  | VDict d =>
      "{" ++
      String.concat ", "
        (map (fun kv => let '(k, x) := kv in str_repr k ++ ": " ++ py_repr x) d)
      ++ "}"
  end.

(** [str(v)], also what an f-string field without a format specification
    inserts. *)
Definition py_str (v : value) : string :=
  match v with
  | VStr s => s
  | _ => py_repr v
  end.

(** [int(v)] *)
Definition py_int (v : value) : res Z :=
  match v with
  | VInt z => Ok z
  | VBool b => Ok (if b then 1 else 0)%Z
  | VFloat f => int_of_float f
  | VStr s => int_of_string s
  | VNone | VList _ | VDict _ => Raise TypeError
  end.

(** [float(v)] *)
Definition py_float (v : value) : res float :=
  match v with
  | VFloat f => Ok f
  | VInt z => float_of_int z
  | VBool b => float_of_int (if b then 1 else 0)%Z
  | VStr s => float_of_string s
  | VNone | VList _ | VDict _ => Raise TypeError
  end.

(** An argument that must already be a [str]. *)
Definition as_str (v : value) : res string :=
  match v with
  | VStr s => Ok s
  | _ => Raise TypeError
  end.

(** [sum] of floats, added left to right with each addition rounded (the
    plain loop; interpreters from 3.12 on compensate its rounding error). It
    starts from the integer 0, which adds and formats as the float 0.0. *)
Definition py_sum (l : list float) : float := fold_left fadd l fzero.

(** The scan of [s.replace(old, new)], left to right over non-overlapping
    occurrences of a non-empty [old]; [skip] characters of a replaced
    occurrence are still to be passed. *)
Fixpoint replace_from (old new : string) (skip : nat) (s : string) : string :=
  match s with
  | "" => ""
  | String c s' =>
      match skip with
      | S k => replace_from old new k s'
      | O =>
          if prefix old s
          then new ++ replace_from old new (String.length old - 1) s'
          else String c (replace_from old new 0 s')
      end
  end.

Fixpoint intersperse (new s : string) : string :=
  match s with
  | "" => new
  | String c s' => new ++ String c (intersperse new s')
  end.

(** [s.replace(old, new)] *)
Definition replace (old new s : string) : string :=
  match old with
  | "" => intersperse new s
  | _ => replace_from old new 0 s
  end.

(** [range(0, stop, step)] for a positive [step]; [stop] steps are enough. *)
Fixpoint range_from (fuel start stop step : nat) : list nat :=
  match fuel with
  | O => []
  | S fuel' =>
      if (start <? stop)%nat
      then start :: range_from fuel' (start + step) stop step
      else []
  end.

Definition range0 (stop step : nat) : list nat := range_from stop 0 stop step.

(** [l[a:b]] for [0 <= a <= b] *)
Definition slice {A : Type} (l : list A) (a b : nat) : list A :=
  firstn (b - a) (skipn a l).

(** [enumerate(l, start)] *)
Fixpoint enumerate {A : Type} (l : list A) (start : nat) : list (nat * A) :=
  match l with
  | [] => []
  | x :: l' => (start, x) :: enumerate l' (S start)
  end.

Definition str_of_nat (n : nat) : string := str_of_Z (Z.of_nat n).

(** ** The generator *)

(** A [Path]: its text and its [suffix]. *)
Record Path : Type := { path_text : string; suffix : string }.

(** The data directory after loading ([None]: the file does not exist) and
    the text of the files [open] can read. *)
Record world : Type := {
  customer_csv : option (list dict);
  customer_json : option (list dict);
  product_csv : option (list dict);
  product_json : option (list dict);
  files : string -> option string
}.

Definition is_csv (file_path : Path) : bool :=
  String.eqb (lower (suffix file_path)) ".csv".

(** [str(row.get(key)) == str(id)] *)
Definition matches_id (key : string) (id : value) (row : dict) : bool :=
  String.eqb (py_str (get row key)) (py_str id).

(** One turn of the loop over the rows of a flat file; the state is
    [(invoice_items, invoice_date, customer_id)]. *)
Definition scan_row (invoice_id : value) (st : list dict * value * value)
  (row : dict) : list dict * value * value :=
  let '(invoice_items, invoice_date, customer_id) := st in
  if matches_id "invoice_id" invoice_id row then
    ((invoice_items ++ [row])%list,
     match invoice_date with
     | VNone => get row "date"
     | _ => invoice_date
     end,
     match customer_id with
     | VNone => get row "customer_id"
     | _ => customer_id
     end)
  else st.

Definition get_invoice_data (data : list dict) (invoice_id : value)
  (file_path : Path) : res dict :=
  if is_csv file_path then
    let '(invoice_items, invoice_date, customer_id) :=
      fold_left (scan_row invoice_id) data ([], VNone, VNone) in
    Ok [("invoice_id", invoice_id);
        ("customer_id", customer_id);
        ("date", invoice_date);
        ("items", VList (map VDict invoice_items))]
  else
    match find (matches_id "invoice_id" invoice_id) data with
    | Some item => Ok item
    | None => Raise ValueError
    end.

(** The scan of one reference file, when it exists. *)
Definition scan_source (key : string) (id : value) (source : option (list dict))
  : option dict :=
  match source with
  | Some rows => find (matches_id key id) rows
  | None => None
  end.

Definition load_customer_data (w : world) (customer_id : value) : option dict :=
  match scan_source "customer_id" customer_id (customer_csv w) with
  | Some customer => Some customer
  | None =>
      match scan_source "customer_id" customer_id (customer_json w) with
      | Some customer => Some customer
      | None => None
      end
  end.

Definition load_product_data (w : world) (product_id : value) : option dict :=
  match scan_source "product_id" product_id (product_csv w) with
  | Some product => Some product
  | None =>
      match scan_source "product_id" product_id (product_json w) with
      | Some product => Some product
      | None => None
      end
  end.

(** The dict appended for a resolved item, by its five keys. *)
Record line_item : Type := {
  product_id : value;
  name : value;
  quantity : Z;
  price : float;
  total : float
}.

Definition unknown_product : string := "Неизвестный товар".

(** [if product:] holds for a record with at least one field. *)
Definition truthy (product : option dict) : bool :=
  match product with
  | Some (_ :: _) => true
  | _ => false
  end.

(** The body of the loop over the raw items (it is the same in both
    branches): the items it appends. *)
Definition enrich_item (w : world) (item : value) : res (list line_item) :=
  pid <- obj_get item "product_id" ;;
  q <- obj_get_default item "quantity" (VInt 1) ;;
  quantity <- py_int q ;;
  let product := load_product_data w pid in
  if truthy product then
    let fields := match product with Some d => d | None => [] end in
    price <- py_float (get_default fields "price" (VInt 0)) ;;
    qf <- float_of_int quantity ;;
    Ok [ {| product_id := pid;
            name := get_default fields "name" (VStr unknown_product);
            quantity := quantity;
            price := price;
            total := fmul price qf |} ]
  else Ok [].

Fixpoint enrich (w : world) (raw : list value) : res (list line_item) :=
  match raw with
  | [] => Ok []
  | item :: rest =>
      here <- enrich_item w item ;;
      more <- enrich w rest ;;
      Ok (here ++ more)%list
  end.

Definition prepare_invoice_items (w : world) (invoice_data : dict)
  (file_path : Path) : res (list line_item) :=
  if is_csv file_path then
    match lookup invoice_data "items" with
    | Some v => raw <- py_iter v ;; enrich w raw
    | None => Raise KeyError
    end
  else
    raw <- py_iter (get_default invoice_data "items" (VList [])) ;;
    enrich w raw.

(** *** Markup *)

(** The markup literals are written with ['] where the source has a double
    quote. *)
Fixpoint html (s : string) : string :=
  match s with
  | "" => ""
  | String c s' =>
      String (if Ascii.eqb c "'" then ascii_of_nat 34 else c) (html s')
  end.

Definition lines (l : list string) : string := String.concat nl l.

Definition items_per_page : nat := 10.

Definition header_repeat (invoice_data customer_data : dict) : string :=
  lines [
    "";
    html "    <div class='page-break'></div>";
    html "    <div class='header-repeat'>";
    "        <h2>Счёт №" ++ py_str (get_default invoice_data "invoice_id" (VStr "")) ++ "</h2>";
    html "        <div class='header-repeat-info'>";
    html "            <div class='header-repeat-info-row'>";
    html "                <div class='header-repeat-info-cell header-repeat-info-label'>Дата:</div>";
    html "                <div class='header-repeat-info-cell'>" ++ py_str (get_default invoice_data "date" (VStr "")) ++ "</div>";
    "            </div>";
    "        </div>";
    html "        <div class='header-repeat-customer'>";
    "            <h3>Покупатель:</h3>";
    html "            <div class='header-repeat-customer-details'>";
    "                <p><strong>" ++ py_str (get_default customer_data "name" (VStr "")) ++ "</strong></p>";
    "                <p>Email: " ++ py_str (get_default customer_data "email" (VStr "")) ++ "</p>";
    "                <p>Телефон: " ++ py_str (get_default customer_data "phone" (VStr "")) ++ "</p>";
    "                <p>Адрес: " ++ py_str (get_default customer_data "address" (VStr "")) ++ "</p>";
    "            </div>";
    "        </div>";
    "    </div>";
    "" ].

(** The markup of one table row. *)
Definition row_markup (global_idx : nat) (item : line_item) : string :=
  lines [
    "";
    "            <tr>";
    html "                <td class='text-center'>" ++ str_of_nat global_idx ++ "</td>";
    "                <td>" ++ py_str (name item) ++ "</td>";
    html "                <td class='text-center'>" ++ str_of_Z (quantity item) ++ "</td>";
    html "                <td class='text-right'>" ++ format_2f (price item) ++ " ₽</td>";
    html "                <td class='text-right'>" ++ format_2f (total item) ++ " ₽</td>";
    "            </tr>";
    "" ].

(** One table row; [idx] is the 1-based position within the page. *)
Definition render_row (page_num : nat) (row : nat * line_item) : string :=
  let (idx, item) := row in
  let global_idx := (page_num + idx)%nat in
  row_markup global_idx item.

Definition table_block (items_rows : string) : string :=
  lines [
    "";
    html "    <div class='table-container'>";
    "        <table>";
    "            <thead>";
    "                <tr>";
    html "                    <th style='width: 5%;'>№</th>";
    html "                    <th style='width: 45%;'>Наименование товара</th>";
    html "                    <th style='width: 10%;' class='text-center'>Кол-во</th>";
    html "                    <th style='width: 15%;' class='text-right'>Цена за шт.</th>";
    html "                    <th style='width: 15%;' class='text-right'>Сумма</th>";
    "                </tr>";
    "            </thead>";
    "            <tbody>";
    "                " ++ items_rows;
    "            </tbody>";
    "        </table>";
    "    </div>";
    "" ].

(** The items of the page that starts at [page_num]. *)
Definition page_items (items : list line_item) (page_num : nat)
  : list line_item :=
  slice items page_num (page_num + items_per_page).

(** What one turn of the page loop appends to [tables_html]. *)
Definition render_page (invoice_data customer_data : dict)
  (items : list line_item) (page_num : nat) : string :=
  let is_first_page := (page_num =? 0)%nat in
  (if negb is_first_page
   then header_repeat invoice_data customer_data else "") ++
  table_block
    (String.concat "" (map (render_row page_num)
                           (enumerate (page_items items page_num) 1))).

Definition page_starts (items : list line_item) : list nat :=
  range0 (List.length items) items_per_page.

Definition tables_html (invoice_data customer_data : dict)
  (items : list line_item) : string :=
  String.concat ""
    (map (render_page invoice_data customer_data items) (page_starts items)).

(** [total_amount] *)
Definition grand_total (items : list line_item) : float :=
  py_sum (map total items).

(** The body of [generate_html] once the template is read. *)
Definition fill_template (html_template : string)
  (invoice_data customer_data : dict) (items : list line_item) : res string :=
  let html := replace "{{invoice_id}}"
                (py_str (get_default invoice_data "invoice_id" (VStr "")))
                html_template in
  let html := replace "{{invoice_date}}"
                (py_str (get_default invoice_data "date" (VStr ""))) html in
  v <- as_str (get_default customer_data "name" (VStr "")) ;;
  let html := replace "{{customer_name}}" v html in
  v <- as_str (get_default customer_data "email" (VStr "")) ;;
  let html := replace "{{customer_email}}" v html in
  v <- as_str (get_default customer_data "phone" (VStr "")) ;;
  let html := replace "{{customer_phone}}" v html in
  v <- as_str (get_default customer_data "address" (VStr "")) ;;
  let html := replace "{{customer_address}}" v html in
  let total_amount := grand_total items in
  let html := replace "{{tables}}"
                (tables_html invoice_data customer_data items) html in
  let html := replace "{{total_amount}}" (format_2f total_amount) html in
  Ok html.

(** [generate_html] reads the template file and writes nothing: it returns
    its result and the world it leaves. *)
Definition generate_html (w : world) (template_path : Path)
  (invoice_data customer_data : dict) (items : list line_item)
  : res string * world :=
  match files w (path_text template_path) with
  | None => (Raise FileNotFoundError, w)
  | Some html_template =>
      (fill_template html_template invoice_data customer_data items, w)
  end.

(** ** Definitions the statements use *)

(** The first value of [key] that is not [None] among [rows]. *)
Fixpoint first_present (key : string) (rows : list dict) : value :=
  match rows with
  | [] => VNone
  | row :: rest =>
      match get row key with
      | VNone => first_present key rest
      | v => v
      end
  end.

(** The enrichment the specification describes: a raw item whose product does
    not resolve yields nothing, a resolved one yields an item whose line total
    is its unit price times its quantity. *)
Inductive emitted (w : world) : list value -> list line_item -> Prop :=
| emitted_nil : emitted w [] []
| emitted_drop (raw : dict) (rest : list value) (items : list line_item) :
    truthy (load_product_data w (get raw "product_id")) = false ->
    emitted w rest items ->
    emitted w (VDict raw :: rest) items
| emitted_keep (raw product : dict) (q : Z) (unit_price qf : float)
    (rest : list value) (items : list line_item) :
    load_product_data w (get raw "product_id") = Some product ->
    product <> [] ->
    py_int (get_default raw "quantity" (VInt 1)) = Ok q ->
    py_float (get_default product "price" (VInt 0)) = Ok unit_price ->
    float_of_int q = Ok qf ->
    emitted w rest items ->
    emitted w (VDict raw :: rest)
      ({| product_id := get raw "product_id";
          name := get_default product "name" (VStr unknown_product);
          quantity := q;
          price := unit_price;
          total := fmul unit_price qf |} :: items).

(** The raw items [prepare_invoice_items] iterates over. *)
Definition raw_items (invoice_data : dict) (file_path : Path) : res (list value) :=
  if is_csv file_path then
    match lookup invoice_data "items" with
    | Some v => py_iter v
    | None => Raise KeyError
    end
  else py_iter (get_default invoice_data "items" (VList [])).

(** The texts substituted for the eight placeholders. *)
Record slots : Type := {
  s_invoice_id : string;
  s_invoice_date : string;
  s_customer_name : string;
  s_customer_email : string;
  s_customer_phone : string;
  s_customer_address : string;
  s_tables : string;
  s_total_amount : string
}.

Definition slot_values (invoice_data customer_data : dict)
  (items : list line_item) : res slots :=
  n <- as_str (get_default customer_data "name" (VStr "")) ;;
  e <- as_str (get_default customer_data "email" (VStr "")) ;;
  p <- as_str (get_default customer_data "phone" (VStr "")) ;;
  a <- as_str (get_default customer_data "address" (VStr "")) ;;
  Ok {| s_invoice_id := py_str (get_default invoice_data "invoice_id" (VStr ""));
        s_invoice_date := py_str (get_default invoice_data "date" (VStr ""));
        s_customer_name := n;
        s_customer_email := e;
        s_customer_phone := p;
        s_customer_address := a;
        s_tables := tables_html invoice_data customer_data items;
        s_total_amount := format_2f (grand_total items) |}.

(** A placeholder token and the eight names the composer knows. *)
Definition token (name : string) : string := "{{" ++ name ++ "}}".

Definition slot_names (v : slots) : list (string * string) :=
  [("invoice_id", s_invoice_id v);
   ("invoice_date", s_invoice_date v);
   ("customer_name", s_customer_name v);
   ("customer_email", s_customer_email v);
   ("customer_phone", s_customer_phone v);
   ("customer_address", s_customer_address v);
   ("tables", s_tables v);
   ("total_amount", s_total_amount v)].

Definition placeholder_names : list string :=
  ["invoice_id"; "invoice_date"; "customer_name"; "customer_email";
   "customer_phone"; "customer_address"; "tables"; "total_amount"].

(** The eight replacements in the order the source applies them. *)
Definition substitute (v : slots) (template : string) : string :=
  fold_left (fun html kv => replace (token (fst kv)) (snd kv) html)
    (slot_names v) template.

(** A name without braces. *)
Fixpoint brace_free (s : string) : bool :=
  match s with
  | "" => true
  | String c s' =>
      negb (Ascii.eqb c "{") && negb (Ascii.eqb c "}") && brace_free s'
  end.

(** [old] occurs in [s] at some position. *)
Fixpoint occurs (old s : string) : bool :=
  match s with
  | "" => prefix old ""
  | String _ s' => prefix old s || occurs old s'
  end.

(** A float that is a zero or a finite number of sign [s]. *)
Definition signed_finite (s : bool) (f : float) : Prop :=
  match f with
  | S754_zero s' | S754_finite s' _ _ => s' = s
  | _ => False
  end.

(** ** Sample data *)

Definition sample_world : world := {|
  customer_csv := Some [[("customer_id", VStr "9"); ("name", VStr "Flat")]];
  customer_json := Some [[("customer_id", VInt 9); ("name", VStr "Nested")]];
  product_csv :=
    Some [[("product_id", VStr "A"); ("name", VStr "Pen"); ("price", VStr "10.00")];
          [("product_id", VStr "B"); ("name", VStr "Ink"); ("price", VStr "5.00")];
          [("product_id", VStr "F"); ("name", VStr "Gift")]];
  product_json := Some [[]; [("product_id", VStr "A"); ("price", VInt 99)]];
  files := fun p =>
    if String.eqb p "templates/invoice.html"
    then Some "<h1>{{invoice_id}}</h1>{{tables}}<b>{{total_amount}}</b>{{note}}"
    else None
|}.

(** Two rows of invoice 1 under the header
    [invoice_id,product_id,quantity,customer_id,date]; the first row is
    short, so its last two fields are [None]. *)
Definition short_row : dict :=
  [("invoice_id", VStr "1"); ("product_id", VStr "A"); ("quantity", VStr "2");
   ("customer_id", VNone); ("date", VNone)].

Definition full_row : dict :=
  [("invoice_id", VStr "1"); ("product_id", VStr "B"); ("quantity", VStr "1");
   ("customer_id", VStr "9"); ("date", VStr "2024-01-01")].

(** A row of another invoice. *)
Definition other_invoice : dict :=
  [("invoice_id", VStr "2"); ("product_id", VStr "A"); ("quantity", VStr "1");
   ("customer_id", VStr "9"); ("date", VStr "2024-01-01")].

(** Raw items: a resolvable one, one whose product is unknown, one whose
    product record has no price, and malformed or oversized quantities. *)
Definition item_A : dict := [("product_id", VStr "A"); ("quantity", VStr "2")].
Definition item_B_no_quantity : dict := [("product_id", VStr "B")].
Definition item_unknown : dict := [("product_id", VStr "Z"); ("quantity", VInt 4)].
Definition item_unknown_bad_quantity : dict :=
  [("product_id", VStr "Z"); ("quantity", VStr "two")].
Definition item_bad_quantity : dict :=
  [("product_id", VStr "A"); ("quantity", VStr "two")].
Definition item_free : dict := [("product_id", VStr "F"); ("quantity", VInt 3)].
Definition item_free_returned : dict :=
  [("product_id", VStr "F"); ("quantity", VInt (-3))].
Definition item_free_bad_quantity : dict :=
  [("product_id", VStr "F"); ("quantity", VStr "many")].
Definition item_free_huge : dict :=
  [("product_id", VStr "F"); ("quantity", VInt (2 ^ 1024))].
Definition item_no_product_id : dict := [("quantity", VInt 1)].

Definition ten : float := S754_finite false 5629499534213120 (-49).
Definition five : float := S754_finite false 5629499534213120 (-50).
Definition twenty : float := S754_finite false 5629499534213120 (-48).

Definition line_A : line_item :=
  {| product_id := VStr "A"; name := VStr "Pen"; quantity := 2;
     price := ten; total := twenty |}.
Definition line_B : line_item :=
  {| product_id := VStr "B"; name := VStr "Ink"; quantity := 1;
     price := five; total := five |}.

(** The invoice of [short_row] and [full_row], and its customer. *)
Definition sample_invoice : dict :=
  [("invoice_id", VInt 1); ("customer_id", VStr "9");
   ("date", VStr "2024-01-01");
   ("items", VList [VDict short_row; VDict full_row])].

Definition sample_customer : dict :=
  [("customer_id", VStr "9"); ("name", VStr "Flat")].


Definition csv_path : Path := {| path_text := "data/invoices.csv"; suffix := ".csv" |}.
Definition json_path : Path := {| path_text := "data/invoices.json"; suffix := ".json" |}.
Definition template_path : Path :=
  {| path_text := "templates/invoice.html"; suffix := ".html" |}.

(** ** The rest of the generator *)

(** Truth value of an object, as [if not x] tests it. *)
Definition py_bool (v : value) : bool :=
  match v with
  | VNone => false
  | VBool b => b
  | VInt z => negb (z =? 0)%Z
  | VFloat (S754_zero _) => false
  | VFloat _ => true
  | VStr s => negb (String.eqb s "")
  | VList l => match l with [] => false | _ => true end
  | VDict d => match d with [] => false | _ => true end
  end.

(** An object a [set] accepts. *)
Definition hashable (v : value) : bool :=
  match v with
  | VList _ | VDict _ => false
  | _ => true
  end.

(** The loop of [get_invoice_ids] over the rows: the values it adds to the
    set, in order; adding an unhashable value raises. *)
Fixpoint add_invoice_ids (data : list dict) : res (list value) :=
  match data with
  | [] => Ok []
  | row :: rest =>
      match lookup row "invoice_id" with
      | Some v =>
          if hashable v
          then (more <- add_invoice_ids rest ;; Ok (v :: more))
          else Raise TypeError
      | None => add_invoice_ids rest
      end
  end.

(** The values [get_invoice_ids] collects; it returns them without repeats,
    sorted. *)
Definition collect_invoice_ids (data : list dict) (file_path : Path)
  : res (list value) :=
  if String.eqb (lower (suffix file_path)) ".csv" then add_invoice_ids data
  else if String.eqb (lower (suffix file_path)) ".json" then add_invoice_ids data
  else Ok [].

(** How [run] ends once the data file, the template and the invoice are
    chosen: the message it prints and returns on, an exception it does not
    catch, or the markup and file name it hands to [generate_pdf]. *)
Inductive outcome : Type :=
| InvoiceDataError (e : exn)
| CustomerIdMissing
| CustomerNotFound (customer_id : value)
| NoItems
| HtmlError (e : exn)
| Uncaught (e : exn)
| PdfRequested (html_content output_filename : string).

(** [run] from "Получаем данные счёта" to the call of [generate_pdf]. *)
Definition run_generation (w : world) (data : list dict)
  (selected_invoice_id : value) (selected_data_file selected_template : Path)
  : outcome :=
  match get_invoice_data data selected_invoice_id selected_data_file with
  | Raise e => InvoiceDataError e
  | Ok invoice_data =>
      let customer_id := get invoice_data "customer_id" in
      if negb (py_bool customer_id) then CustomerIdMissing
      else
        let customer_data := load_customer_data w customer_id in
        if negb (truthy customer_data) then CustomerNotFound customer_id
        else
          let customer := match customer_data with Some c => c | None => [] end in
          match prepare_invoice_items w invoice_data selected_data_file with
          | Raise e => Uncaught e
          | Ok [] => NoItems
          | Ok items =>
              match fst (generate_html w selected_template invoice_data
                           customer items) with
              | Raise e => HtmlError e
              | Ok html_content =>
                  PdfRequested html_content
                    ("invoice_" ++ py_str selected_invoice_id ++ ".pdf")
              end
          end
  end.

(** [l1] is [l2] with some elements left out. *)
Inductive subsequence {A : Type} : list A -> list A -> Prop :=
| subsequence_nil : subsequence [] []
| subsequence_skip (x : A) (l1 l2 : list A) :
    subsequence l1 l2 -> subsequence l1 (x :: l2)
| subsequence_take (x : A) (l1 l2 : list A) :
    subsequence l1 l2 -> subsequence (x :: l1) (x :: l2).

(** The product id of a raw item that is a dict. *)
Definition raw_product_id (item : value) : value :=
  match item with
  | VDict d => get d "product_id"
  | _ => VNone
  end.

(** A customer field that [str.replace] accepts: absent, or a [str]. *)
Definition text_field (customer_data : dict) (key : string) : bool :=
  match lookup customer_data key with
  | None | Some (VStr _) => true
  | Some _ => false
  end.


(** A customer whose id is the integer 0 and an invoice that names it. *)
Definition zero_world : world := {|
  customer_csv := Some [[("customer_id", VInt 0); ("name", VStr "Zero")]];
  customer_json := None;
  product_csv := product_csv sample_world;
  product_json := None;
  files := files sample_world
|}.

Definition zero_invoice : dict :=
  [("invoice_id", VInt 5); ("customer_id", VInt 0);
   ("items", VList [VDict item_A])].

(** A customer whose phone number is an integer. *)
Definition numeric_phone_customer : dict :=
  [("customer_id", VStr "9"); ("name", VStr "Flat"); ("phone", VInt 5550100)].

(** A row of invoice 1 whose quantity is malformed. *)
Definition bad_row : dict :=
  [("invoice_id", VStr "1"); ("product_id", VStr "A"); ("quantity", VStr "two");
   ("customer_id", VStr "9"); ("date", VStr "2024-01-01")].

(** A row of invoice 3 whose product is unknown. *)
Definition unknown_row : dict :=
  [("invoice_id", VStr "3"); ("product_id", VStr "Z"); ("quantity", VStr "1");
   ("customer_id", VStr "9"); ("date", VStr "2024-01-02")].

(** A customer whose name is the text of a placeholder, and a one-line
    template. *)
Definition placeholder_named_customer : dict :=
  [("customer_id", VStr "9"); ("name", VStr "{{total_amount}}")].

Definition letter_world : world := {|
  customer_csv := customer_csv sample_world;
  customer_json := customer_json sample_world;
  product_csv := product_csv sample_world;
  product_json := product_json sample_world;
  files := fun p =>
    if String.eqb p "templates/letter.html"
    then Some "Dear {{customer_name}}!" else None
|}.

Definition letter_path : Path :=
  {| path_text := "templates/letter.html"; suffix := ".html" |}.

(** * Properties *)

(** ** The library model on sample values *)

(** Identifiers are compared by their text: the integer 7 and the text "7"
    agree, the float 7.0 does not. *)
Example py_str_cross_type :
  py_str (VInt 7) = py_str (VStr "7")
  /\ py_str (VFloat (S754_finite false 7881299347898368 (-50))) = "7.0"
  /\ py_str VNone = "None"
  /\ py_str (VList [VInt 1; VStr "a"; VNone]) = "[1, 'a', None]".
Proof. repeat split; vm_compute; reflexivity. Qed.

Example py_int_samples :
  py_int (VStr " 1_000 ") = Ok 1000%Z
  /\ py_int (VStr "-12") = Ok (-12)%Z
  /\ py_int (VStr "two") = Raise ValueError
  /\ py_int (VStr "1.5") = Raise ValueError
  /\ py_int (VStr "") = Raise ValueError
  /\ py_int VNone = Raise TypeError
  /\ py_int (VFloat S754_nan) = Raise ValueError
  /\ py_int (VFloat (S754_finite true 7881299347898368 (-52))) = Ok (-1)%Z.
Proof. repeat split; vm_compute; reflexivity. Qed.

Example py_float_samples :
  py_float (VStr "10.00") = Ok ten
  /\ py_float (VInt 5) = Ok five
  /\ py_float (VStr " 2e1 ") = Ok twenty
  /\ py_float (VStr "0.1") = Ok (S754_finite false 7205759403792794 (-56))
  /\ py_float (VStr "-inf") = Ok (S754_infinity true)
  /\ py_float (VStr "ten") = Raise ValueError
  /\ py_float VNone = Raise TypeError
  /\ py_float (VInt (2 ^ 1024)) = Raise OverflowError.
Proof. repeat split; vm_compute; reflexivity. Qed.

Example format_2f_samples :
  format_2f twenty = "20.00"
  /\ format_2f (S754_finite false 5302425426591744 (-32)) = "1,234,567.12"
  /\ format_2f (S754_finite false 4503599627370496 (-55)) = "0.12"
  /\ format_2f (S754_finite false 6755399441055744 (-54)) = "0.38"
  /\ format_2f (S754_zero true) = "-0.00"
  /\ format_2f fzero = "0.00".
Proof. repeat split; vm_compute; reflexivity. Qed.

Example replace_samples :
  replace "aa" "b" "aaa" = "ba"
  /\ replace "{{x}}" "1" "{{x}} {{x} {{x}}" = "1 {{x} 1"
  /\ replace "" "-" "abc" = "-a-b-c-".
Proof. repeat split; vm_compute; reflexivity. Qed.

(** ** Lists and the error monad *)

Lemma bind_ok {A B : Type} (m : res A) (k : A -> res B) (b : B) :
  bind m k = Ok b -> exists a, m = Ok a /\ k a = Ok b.
Proof.
  destruct m as [a|e]; simpl; intros H.
  - exists a. split; [reflexivity | exact H].
  - discriminate H.
Qed.

Lemma find_first {A : Type} (f : A -> bool) (pre post : list A) (x : A) :
  forallb (fun y => negb (f y)) pre = true -> f x = true ->
  find f (pre ++ x :: post)%list = Some x.
Proof.
  induction pre as [|y pre IH]; simpl; intros Hpre Hx.
  - rewrite Hx. reflexivity.
  - apply andb_prop in Hpre. destruct Hpre as [Hy Hpre].
    destruct (f y); [discriminate Hy | auto].
Qed.

Lemma find_none_forallb {A : Type} (f : A -> bool) (l : list A) :
  forallb (fun y => negb (f y)) l = true -> find f l = None.
Proof.
  induction l as [|y l IH]; simpl; intros H; [reflexivity|].
  apply andb_prop in H. destruct H as [Hy H].
  destruct (f y); [discriminate Hy | auto].
Qed.

Lemma filter_none_forallb {A : Type} (f : A -> bool) (l : list A) :
  forallb (fun y => negb (f y)) l = true -> filter f l = [].
Proof.
  induction l as [|y l IH]; simpl; intros H; [reflexivity|].
  apply andb_prop in H. destruct H as [Hy H].
  destruct (f y); [discriminate Hy | auto].
Qed.

(** ** Resolution of references *)

Lemma scan_source_sound (key : string) (id : value) (source : option (list dict))
  (r : dict) :
  scan_source key id source = Some r -> matches_id key id r = true.
Proof.
  destruct source as [rows|]; simpl; [|discriminate].
  intros H. apply find_some in H. apply H.
Qed.

(** C3. Resolution scans the flat-table source first: the first record of
    [customer.csv] (of [product.csv]) whose id stringifies equal to the
    requested id is returned whatever the structured source holds; the
    structured source is scanned, again for its first match, only when the
    flat one is absent or has no match; and any record returned matches. *)
Theorem C3_flat_source_first (w : world) (id : value) :
  (forall pre r post,
      customer_csv w = Some (pre ++ r :: post)%list ->
      forallb (fun x => negb (matches_id "customer_id" id x)) pre = true ->
      matches_id "customer_id" id r = true ->
      load_customer_data w id = Some r) /\
  (forall pre r post,
      product_csv w = Some (pre ++ r :: post)%list ->
      forallb (fun x => negb (matches_id "product_id" id x)) pre = true ->
      matches_id "product_id" id r = true ->
      load_product_data w id = Some r) /\
  (scan_source "customer_id" id (customer_csv w) = None ->
   load_customer_data w id = scan_source "customer_id" id (customer_json w)) /\
  (scan_source "product_id" id (product_csv w) = None ->
   load_product_data w id = scan_source "product_id" id (product_json w)) /\
  (forall pre r post,
      customer_json w = Some (pre ++ r :: post)%list ->
      forallb (fun x => negb (matches_id "customer_id" id x)) pre = true ->
      matches_id "customer_id" id r = true ->
      scan_source "customer_id" id (customer_json w) = Some r) /\
  (forall pre r post,
      product_json w = Some (pre ++ r :: post)%list ->
      forallb (fun x => negb (matches_id "product_id" id x)) pre = true ->
      matches_id "product_id" id r = true ->
      scan_source "product_id" id (product_json w) = Some r) /\
  (forall r, load_customer_data w id = Some r ->
             matches_id "customer_id" id r = true) /\
  (forall r, load_product_data w id = Some r ->
             matches_id "product_id" id r = true).
Proof.
  unfold load_customer_data, load_product_data.
  repeat split.
  - intros pre r post Hcsv Hpre Hr. rewrite Hcsv. simpl.
    rewrite (find_first _ pre post r Hpre Hr). reflexivity.
  - intros pre r post Hcsv Hpre Hr. rewrite Hcsv. simpl.
    rewrite (find_first _ pre post r Hpre Hr). reflexivity.
  - intros H. rewrite H.
    destruct (scan_source "customer_id" id (customer_json w)); reflexivity.
  - intros H. rewrite H.
    destruct (scan_source "product_id" id (product_json w)); reflexivity.
  - intros pre r post Hjson Hpre Hr. rewrite Hjson. simpl.
    apply find_first; assumption.
  - intros pre r post Hjson Hpre Hr. rewrite Hjson. simpl.
    apply find_first; assumption.
  - intros r.
    destruct (scan_source "customer_id" id (customer_csv w)) as [c|] eqn:E1.
    + intros H. injection H as <-. exact (scan_source_sound _ _ _ _ E1).
    + destruct (scan_source "customer_id" id (customer_json w)) as [c|] eqn:E2;
        [|discriminate].
      intros H. injection H as <-. exact (scan_source_sound _ _ _ _ E2).
  - intros r.
    destruct (scan_source "product_id" id (product_csv w)) as [c|] eqn:E1.
    + intros H. injection H as <-. exact (scan_source_sound _ _ _ _ E1).
    + destruct (scan_source "product_id" id (product_json w)) as [c|] eqn:E2;
        [|discriminate].
      intros H. injection H as <-. exact (scan_source_sound _ _ _ _ E2).
Qed.

(** The customer id 9 is in both sources of the sample: the flat record is
    returned. *)
Lemma C3_flat_source_first_witness :
  load_customer_data sample_world (VInt 9)
  = Some [("customer_id", VStr "9"); ("name", VStr "Flat")].
Proof.
  apply (proj1 (C3_flat_source_first sample_world (VInt 9)) [] _ []);
    reflexivity.
Defined.

(** ** Assembly of a flat invoice *)

Lemma fold_scan_row (id : value) (data : list dict) :
  forall (acc : list dict) (d c : value),
    fold_left (scan_row id) data (acc, d, c)
    = ((acc ++ filter (matches_id "invoice_id" id) data)%list,
       match d with
       | VNone => first_present "date" (filter (matches_id "invoice_id" id) data)
       | _ => d
       end,
       match c with
       | VNone =>
           first_present "customer_id" (filter (matches_id "invoice_id" id) data)
       | _ => c
       end).
Proof.
  induction data as [|row data IH]; intros acc d c; simpl.
  - rewrite app_nil_r. destruct d, c; reflexivity.
  - destruct (matches_id "invoice_id" id row) eqn:E.
    + rewrite IH. rewrite <- app_assoc. simpl.
      destruct d, c; destruct (get row "date"), (get row "customer_id");
        reflexivity.
    + apply IH.
Qed.

Lemma get_invoice_data_flat (data : list dict) (id : value) (file_path : Path) :
  is_csv file_path = true ->
  get_invoice_data data id file_path
  = Ok [("invoice_id", id);
        ("customer_id",
         first_present "customer_id" (filter (matches_id "invoice_id" id) data));
        ("date", first_present "date" (filter (matches_id "invoice_id" id) data));
        ("items", VList (map VDict (filter (matches_id "invoice_id" id) data)))].
Proof.
  intros Hcsv. unfold get_invoice_data. rewrite Hcsv.
  rewrite fold_scan_row. reflexivity.
Qed.

(** C6. With no record whose [invoice_id] stringifies equal to the target,
    the nested shape raises [ValueError], while the flat shape returns a
    header whose [customer_id] and [date] are [None] and whose item list is
    empty: its [return] comes before the [raise]. *)
Theorem C6_not_found (data : list dict) (id : value) (file_path : Path) :
  forallb (fun row => negb (matches_id "invoice_id" id row)) data = true ->
  (is_csv file_path = false ->
   get_invoice_data data id file_path = Raise ValueError) /\
  (is_csv file_path = true ->
   get_invoice_data data id file_path
   = Ok [("invoice_id", id); ("customer_id", VNone); ("date", VNone);
         ("items", VList [])]).
Proof.
  intros Hnone. split; intros Hshape.
  - unfold get_invoice_data. rewrite Hshape.
    rewrite (find_none_forallb _ _ Hnone). reflexivity.
  - rewrite (get_invoice_data_flat _ _ _ Hshape).
    rewrite (filter_none_forallb _ _ Hnone). reflexivity.
Qed.

Lemma C6_not_found_witness :
  get_invoice_data [other_invoice] (VInt 1) json_path = Raise ValueError /\
  get_invoice_data [other_invoice] (VInt 1) csv_path
  = Ok [("invoice_id", VInt 1); ("customer_id", VNone); ("date", VNone);
        ("items", VList [])].
Proof.
  split.
  - apply (C6_not_found [other_invoice] (VInt 1) json_path); reflexivity.
  - apply (C6_not_found [other_invoice] (VInt 1) csv_path); reflexivity.
Defined.

(** C7, as stated, fails: the first matching record carries neither field
    and the header takes both from the second one. *)
Lemma C7_counterexample :
  get_invoice_data [short_row; full_row] (VInt 1) csv_path
  = Ok [("invoice_id", VInt 1); ("customer_id", VStr "9");
        ("date", VStr "2024-01-01");
        ("items", VList [VDict short_row; VDict full_row])]
  /\ get short_row "customer_id" = VNone
  /\ get short_row "date" = VNone.
Proof. repeat split. Qed.

(** C7, amended. For a flat file the header takes [customer_id] and [date],
    each on its own, from the first matching record in which the field is
    not [None], and [None] when there is none; so it takes them from the
    first matching record whenever that record carries them, whatever later
    records say. Every matching record becomes one raw item, in input
    order. *)
Theorem C7_first_present (data : list dict) (id : value) (file_path : Path) :
  is_csv file_path = true ->
  let rows := filter (matches_id "invoice_id" id) data in
  get_invoice_data data id file_path
  = Ok [("invoice_id", id);
        ("customer_id", first_present "customer_id" rows);
        ("date", first_present "date" rows);
        ("items", VList (map VDict rows))]
  /\ (forall first later,
         rows = first :: later ->
         (get first "customer_id" <> VNone ->
          first_present "customer_id" rows = get first "customer_id") /\
         (get first "date" <> VNone ->
          first_present "date" rows = get first "date")).
Proof.
  intros Hcsv rows. split.
  - apply get_invoice_data_flat. exact Hcsv.
  - intros first later ->. simpl. split; intros Hv.
    + destruct (get first "customer_id"); congruence.
    + destruct (get first "date"); congruence.
Qed.

Lemma C7_first_present_witness :
  get_invoice_data [full_row; short_row; other_invoice] (VStr "1") csv_path
  = Ok [("invoice_id", VStr "1"); ("customer_id", VStr "9");
        ("date", VStr "2024-01-01");
        ("items", VList [VDict full_row; VDict short_row])].
Proof.
  exact (proj1 (C7_first_present [full_row; short_row; other_invoice]
                  (VStr "1") csv_path eq_refl)).
Defined.

(** ** Enrichment *)

Lemma enrich_item_dict (w : world) (d : dict) :
  enrich_item w (VDict d)
  = (quantity <- py_int (get_default d "quantity" (VInt 1)) ;;
     let product := load_product_data w (get d "product_id") in
     if truthy product then
       let fields := match product with Some r => r | None => [] end in
       price <- py_float (get_default fields "price" (VInt 0)) ;;
       qf <- float_of_int quantity ;;
       Ok [ {| product_id := get d "product_id";
               name := get_default fields "name" (VStr unknown_product);
               quantity := quantity;
               price := price;
               total := fmul price qf |} ]
     else Ok []).
Proof. reflexivity. Qed.

Lemma enrich_app (w : world) (l1 l2 : list value) :
  enrich w (l1 ++ l2)%list
  = (a <- enrich w l1 ;; b <- enrich w l2 ;; Ok (a ++ b)%list).
Proof.
  induction l1 as [|item l1 IH]; simpl.
  - destruct (enrich w l2); reflexivity.
  - destruct (enrich_item w item) as [here|e]; simpl; [|reflexivity].
    rewrite IH.
    destruct (enrich w l1) as [a|e]; simpl; [|reflexivity].
    destruct (enrich w l2) as [b|e]; simpl; [|reflexivity].
    rewrite app_assoc. reflexivity.
Qed.

Lemma enrich_skip (w : world) (item : value) (l1 l2 : list value) :
  enrich_item w item = Ok [] ->
  enrich w (l1 ++ item :: l2)%list = enrich w (l1 ++ l2)%list.
Proof.
  intros H. rewrite !enrich_app. simpl. rewrite H. simpl.
  destruct (enrich w l1) as [a|e]; simpl; [|reflexivity].
  destruct (enrich w l2) as [b|e]; reflexivity.
Qed.

Lemma enrich_emitted (w : world) (raw : list value) :
  forall items, enrich w raw = Ok items -> emitted w raw items.
Proof.
  induction raw as [|item raw IH]; simpl; intros items H.
  - injection H as <-. constructor.
  - apply bind_ok in H. destruct H as (here & Hitem & H).
    apply bind_ok in H. destruct H as (more & Hrest & H).
    injection H as <-. specialize (IH more Hrest).
    destruct item as [| | | | | |d]; try discriminate Hitem.
    rewrite enrich_item_dict in Hitem.
    apply bind_ok in Hitem. destruct Hitem as (q & Hq & Hitem).
    cbv zeta in Hitem.
    destruct (truthy (load_product_data w (get d "product_id"))) eqn:Ht.
    + destruct (load_product_data w (get d "product_id")) as [[|f fs]|] eqn:Hp;
        try discriminate Ht.
      apply bind_ok in Hitem. destruct Hitem as (unit_price & Hprice & Hitem).
      apply bind_ok in Hitem. destruct Hitem as (qf & Hqf & Hitem).
      injection Hitem as <-. simpl.
      eapply emitted_keep; eauto. discriminate.
    + injection Hitem as <-. simpl. apply emitted_drop; assumption.
Qed.

Lemma prepare_invoice_items_raw (w : world) (invoice_data : dict)
  (file_path : Path) :
  prepare_invoice_items w invoice_data file_path
  = (raw <- raw_items invoice_data file_path ;; enrich w raw).
Proof.
  unfold prepare_invoice_items, raw_items.
  destruct (is_csv file_path); [|reflexivity].
  destruct (lookup invoice_data "items"); reflexivity.
Qed.

(** C4, as stated, fails: the quantity is converted before the product is
    looked up, so an unknown product with a malformed quantity raises. *)
Lemma C4_counterexample :
  load_product_data sample_world (get item_unknown_bad_quantity "product_id")
  = None
  /\ enrich_item sample_world (VDict item_unknown_bad_quantity)
     = Raise ValueError
  /\ prepare_invoice_items sample_world
       [("invoice_id", VInt 1);
        ("items", VList [VDict item_A; VDict item_unknown_bad_quantity])]
       json_path
     = Raise ValueError.
Proof. repeat split. Qed.

(** C4, amended. A raw item whose quantity is absent or converts to an
    integer and whose product resolves to no record is dropped without an
    error: the loop appends nothing for it, and enrichment of a list that
    holds it is enrichment of the list without it, so the items emitted and
    the grand total are those of the other items. *)
Theorem C4_unresolved_dropped (w : world) (raw : dict) (q : Z) :
  py_int (get_default raw "quantity" (VInt 1)) = Ok q ->
  load_product_data w (get raw "product_id") = None ->
  enrich_item w (VDict raw) = Ok [] /\
  (forall before after,
      enrich w (before ++ VDict raw :: after)%list
      = enrich w (before ++ after)%list) /\
  (forall before after items,
      enrich w (before ++ VDict raw :: after)%list = Ok items ->
      exists items',
        enrich w (before ++ after)%list = Ok items' /\
        grand_total items = grand_total items').
Proof.
  intros Hq Hp.
  assert (H : enrich_item w (VDict raw) = Ok []).
  { rewrite enrich_item_dict, Hq, Hp. reflexivity. }
  split; [exact H|]. split.
  - intros before after. apply enrich_skip. exact H.
  - intros before after items Hitems.
    exists items. rewrite <- (enrich_skip w _ before after H).
    split; [exact Hitems|reflexivity].
Qed.

Lemma C4_unresolved_dropped_witness :
  enrich sample_world [VDict item_A; VDict item_unknown; VDict item_B_no_quantity]
  = enrich sample_world [VDict item_A; VDict item_B_no_quantity].
Proof.
  exact (proj1 (proj2 (C4_unresolved_dropped sample_world item_unknown 4
                         eq_refl eq_refl))
           [VDict item_A] [VDict item_B_no_quantity]).
Defined.

Example enrich_sample :
  enrich sample_world [VDict item_A; VDict item_unknown; VDict item_B_no_quantity]
  = Ok [line_A; line_B].
Proof. vm_compute. reflexivity. Qed.

(** C5, as stated, fails: a quantity that is present but is not an integer
    numeral raises [ValueError]; no default is applied. *)
Lemma C5_counterexample :
  load_product_data sample_world (get item_bad_quantity "product_id")
  = Some [("product_id", VStr "A"); ("name", VStr "Pen"); ("price", VStr "10.00")]
  /\ enrich_item sample_world (VDict item_bad_quantity) = Raise ValueError
  /\ prepare_invoice_items sample_world
       [("invoice_id", VInt 1); ("items", VList [VDict item_bad_quantity])]
       json_path
     = Raise ValueError.
Proof. repeat split. Qed.

(** C5, amended. The quantity defaults to 1 only when the field is absent:
    the item then behaves as the same item with quantity 1. A quantity that
    is present is converted by [int]: when the conversion raises, enrichment
    raises the same error, and otherwise every item emitted carries the
    converted integer. *)
Theorem C5_quantity_default (w : world) (raw : dict) :
  (lookup raw "quantity" = None ->
   enrich_item w (VDict raw) = enrich_item w (VDict (("quantity", VInt 1) :: raw))
   /\ forall items, enrich_item w (VDict raw) = Ok items ->
                    Forall (fun it => quantity it = 1%Z) items) /\
  (forall v e, lookup raw "quantity" = Some v -> py_int v = Raise e ->
               enrich_item w (VDict raw) = Raise e) /\
  (forall v q items, lookup raw "quantity" = Some v -> py_int v = Ok q ->
                     enrich_item w (VDict raw) = Ok items ->
                     Forall (fun it => quantity it = q) items).
Proof.
  assert (Hq : forall q items,
             py_int (get_default raw "quantity" (VInt 1)) = Ok q ->
             enrich_item w (VDict raw) = Ok items ->
             Forall (fun it => quantity it = q) items).
  { intros q items Hint. rewrite enrich_item_dict, Hint. simpl.
    destruct (truthy (load_product_data w (get raw "product_id"))).
    - intros H. apply bind_ok in H. destruct H as (unit_price & _ & H).
      apply bind_ok in H. destruct H as (qf & _ & H).
      injection H as <-. repeat constructor.
    - intros H. injection H as <-. constructor. }
  repeat split.
  - rewrite !enrich_item_dict. unfold get_default, get. simpl. rewrite H.
    reflexivity.
  - intros items. apply Hq. unfold get_default. rewrite H. reflexivity.
  - intros v e Hv He. rewrite enrich_item_dict. unfold get_default.
    rewrite Hv, He. reflexivity.
  - intros v q items Hv Hint. apply Hq. unfold get_default. rewrite Hv.
    exact Hint.
Qed.

Lemma C5_quantity_default_witness :
  enrich_item sample_world (VDict item_B_no_quantity) = Ok [line_B].
Proof.
  rewrite (proj1 (proj1 (C5_quantity_default sample_world item_B_no_quantity)
                    eq_refl)).
  vm_compute. reflexivity.
Defined.

(** ** Conversion of an integer to a float *)

Lemma iter_pos_invariant {A : Type} (P : A -> Prop) (f : A -> A) :
  (forall x, P x -> P (f x)) ->
  forall p x, P x -> P (iter_pos f p x).
Proof.
  intros Hf. induction p as [p IH|p IH|]; intros x Hx; simpl; auto.
Qed.

Lemma shr_1_nonneg (mrs : shr_record) :
  (0 <= shr_m mrs)%Z -> (0 <= shr_m (shr_1 mrs))%Z.
Proof.
  destruct mrs as [m r s0]. simpl.
  destruct m as [|p|p]; [| |lia]; intros _.
  - simpl. lia.
  - destruct p; simpl; lia.
Qed.

Lemma shr_fexp_nonneg (m e : Z) (l : location) :
  (0 <= m)%Z -> (0 <= shr_m (fst (shr_fexp prec emax m e l)))%Z.
Proof.
  intros Hm. unfold shr_fexp, shr.
  assert (H0 : (0 <= shr_m (shr_record_of_loc m l))%Z).
  { destruct l as [|[| |]]; exact Hm. }
  destruct (fexp prec emax (Zdigits2 m + e) - e)%Z; simpl; try exact H0.
  apply iter_pos_invariant; [apply shr_1_nonneg | exact H0].
Qed.

Lemma binary_round_aux_signed (s : bool) (m e : Z) (l : location) :
  (0 <= m)%Z ->
  match binary_round_aux prec emax s m e l with
  | S754_zero s' | S754_finite s' _ _ | S754_infinity s' => s' = s
  | S754_nan => False
  end.
Proof.
  intros Hm. unfold binary_round_aux.
  pose proof (shr_fexp_nonneg m e l Hm) as H1.
  destruct (shr_fexp prec emax m e l) as [mrs' e']. simpl in H1.
  assert (H2 : (0 <= round_nearest_even (shr_m mrs') (loc_of_shr_record mrs'))%Z).
  { unfold round_nearest_even.
    destruct (loc_of_shr_record mrs') as [|[| |]];
      try destruct (Z.even (shr_m mrs')); lia. }
  pose proof (shr_fexp_nonneg _ e' loc_Exact H2) as H3.
  destruct (shr_fexp prec emax _ e' loc_Exact) as [mrs'' e'']. simpl in H3.
  destruct (shr_m mrs'') as [|p|p]; [reflexivity| |lia].
  destruct (e'' <=? emax - prec)%Z; reflexivity.
Qed.

Lemma float_of_int_signed (q : Z) (qf : float) :
  float_of_int q = Ok qf -> signed_finite (q <? 0)%Z qf.
Proof.
  unfold float_of_int, binary_normalize.
  destruct q as [|p|p].
  - intros H. injection H as <-. reflexivity.
  - unfold binary_round.
    destruct (shl_align p 0 (fexp prec emax (Z.pos (digits2_pos p) + 0))) as [mz ez].
    pose proof (binary_round_aux_signed false (Zpos mz) ez loc_Exact
                  ltac:(lia)) as H.
    destruct (binary_round_aux prec emax false (Z.pos mz) ez loc_Exact);
      intros E; try discriminate E; injection E as <-; simpl; auto.
  - unfold binary_round.
    destruct (shl_align p 0 (fexp prec emax (Z.pos (digits2_pos p) + 0))) as [mz ez].
    pose proof (binary_round_aux_signed true (Zpos mz) ez loc_Exact
                  ltac:(lia)) as H.
    destruct (binary_round_aux prec emax true (Z.pos mz) ez loc_Exact);
      intros E; try discriminate E; injection E as <-; simpl; auto.
Qed.

Lemma fmul_zero_signed (s : bool) (f : float) :
  signed_finite s f -> fmul fzero f = S754_zero s.
Proof.
  destruct f as [s'|s'| |s' m e]; simpl; intros H; try contradiction;
    subst s'; reflexivity.
Qed.

(** C10, as stated, fails: the empty record resolves for an item without a
    product id and is dropped as if unresolved; and an item whose product
    has no price still raises when its quantity is malformed or too large
    for a float. *)
Lemma C10_counterexample :
  (load_product_data sample_world (get item_no_product_id "product_id") = Some []
   /\ enrich_item sample_world (VDict item_no_product_id) = Ok [])
  /\ (load_product_data sample_world (get item_free_bad_quantity "product_id")
      = Some [("product_id", VStr "F"); ("name", VStr "Gift")]
      /\ enrich_item sample_world (VDict item_free_bad_quantity)
         = Raise ValueError)
  /\ enrich_item sample_world (VDict item_free_huge) = Raise OverflowError.
Proof. repeat split. Qed.

(** C10, amended. When the product resolves to a record that has at least
    one field but no price field, and the quantity is absent or converts to
    an integer that [float] accepts, the item is emitted with unit price 0.0
    and a zero line total (0.0, and -0.0 for a negative quantity). *)
Theorem C10_missing_price (w : world) (raw product : dict) (q : Z) (qf : float) :
  load_product_data w (get raw "product_id") = Some product ->
  product <> [] ->
  lookup product "price" = None ->
  py_int (get_default raw "quantity" (VInt 1)) = Ok q ->
  float_of_int q = Ok qf ->
  enrich_item w (VDict raw)
  = Ok [ {| product_id := get raw "product_id";
            name := get_default product "name" (VStr unknown_product);
            quantity := q;
            price := S754_zero false;
            total := S754_zero (q <? 0)%Z |} ].
Proof.
  intros Hp Hne Hprice Hq Hqf.
  rewrite enrich_item_dict, Hq, Hp. simpl.
  destruct product as [|f fs]; [congruence|]. simpl truthy. cbv iota.
  unfold get_default at 1. rewrite Hprice. simpl py_float.
  change (float_of_int 0) with (Ok fzero). simpl bind. rewrite Hqf.
  pose proof (fmul_zero_signed _ _ (float_of_int_signed _ _ Hqf)) as Hzero.
  simpl. simpl in Hzero. rewrite Hzero. reflexivity.
Qed.

Lemma C10_missing_price_witness :
  enrich_item sample_world (VDict item_free)
  = Ok [ {| product_id := VStr "F"; name := VStr "Gift"; quantity := 3;
            price := S754_zero false; total := S754_zero false |} ]
  /\ enrich_item sample_world (VDict item_free_returned)
     = Ok [ {| product_id := VStr "F"; name := VStr "Gift"; quantity := -3;
               price := S754_zero false; total := S754_zero true |} ].
Proof.
  split.
  - apply (C10_missing_price sample_world item_free
             [("product_id", VStr "F"); ("name", VStr "Gift")] 3
             (S754_finite false 6755399441055744 (-51)));
      (reflexivity || discriminate).
  - apply (C10_missing_price sample_world item_free_returned
             [("product_id", VStr "F"); ("name", VStr "Gift")] (-3)
             (S754_finite true 6755399441055744 (-51)));
      (reflexivity || discriminate).
Defined.

(** ** Composition *)

Lemma fill_template_slots (t : string) (invoice_data customer_data : dict)
  (items : list line_item) :
  fill_template t invoice_data customer_data items
  = (v <- slot_values invoice_data customer_data items ;; Ok (substitute v t)).
Proof.
  unfold fill_template, slot_values.
  destruct (as_str (get_default customer_data "name" (VStr ""))); [|reflexivity].
  destruct (as_str (get_default customer_data "email" (VStr ""))); [|reflexivity].
  destruct (as_str (get_default customer_data "phone" (VStr ""))); [|reflexivity].
  destruct (as_str (get_default customer_data "address" (VStr "")));
    reflexivity.
Qed.

Lemma generate_html_ok (w : world) (template_path : Path)
  (invoice_data customer_data : dict) (items : list line_item) (out : string) :
  fst (generate_html w template_path invoice_data customer_data items) = Ok out ->
  exists t v,
    files w (path_text template_path) = Some t /\
    slot_values invoice_data customer_data items = Ok v /\
    out = substitute v t.
Proof.
  unfold generate_html.
  destruct (files w (path_text template_path)) as [t|]; simpl; [|discriminate].
  rewrite fill_template_slots. intros H.
  apply bind_ok in H. destruct H as (v & Hv & H). injection H as <-.
  exists t, v. auto.
Qed.

Lemma slot_values_total (invoice_data customer_data : dict)
  (items : list line_item) (v : slots) :
  slot_values invoice_data customer_data items = Ok v ->
  s_total_amount v = format_2f (grand_total items) /\
  s_tables v = tables_html invoice_data customer_data items.
Proof.
  unfold slot_values. intros H.
  apply bind_ok in H. destruct H as (n & _ & H).
  apply bind_ok in H. destruct H as (e & _ & H).
  apply bind_ok in H. destruct H as (p & _ & H).
  apply bind_ok in H. destruct H as (a & _ & H).
  injection H as <-. split; reflexivity.
Qed.

(** C1. The items [prepare_invoice_items] emits are those of the raw items
    whose product resolves, each with line total unit price times quantity,
    the other raw items being left out; and whenever [generate_html] returns
    markup for them, the text it substitutes for [{{total_amount}}] is the
    formatted sum of the line totals of exactly these emitted items. *)
Theorem C1_grand_total (w : world) (invoice_data : dict) (file_path : Path)
  (items : list line_item) :
  prepare_invoice_items w invoice_data file_path = Ok items ->
  (exists raw, raw_items invoice_data file_path = Ok raw /\ emitted w raw items)
  /\ grand_total items = fold_left fadd (map total items) fzero
  /\ forall w' template_path customer_data out,
      fst (generate_html w' template_path invoice_data customer_data items)
      = Ok out ->
      exists t v,
        files w' (path_text template_path) = Some t /\
        slot_values invoice_data customer_data items = Ok v /\
        out = substitute v t /\
        s_total_amount v = format_2f (py_sum (map total items)).
Proof.
  intros H. rewrite prepare_invoice_items_raw in H.
  apply bind_ok in H. destruct H as (raw & Hraw & Henrich).
  split; [|split].
  - exists raw. split; [exact Hraw | apply enrich_emitted; exact Henrich].
  - reflexivity.
  - intros w' template_path customer_data out Hout.
    apply generate_html_ok in Hout. destruct Hout as (t & v & Ht & Hv & ->).
    exists t, v. repeat split; try assumption.
    apply (slot_values_total _ _ _ _ Hv).
Qed.

Lemma C1_grand_total_witness :
  (exists raw,
      raw_items sample_invoice csv_path = Ok raw /\
      emitted sample_world raw [line_A; line_B])
  /\ grand_total [line_A; line_B]
     = fold_left fadd (map total [line_A; line_B]) fzero
  /\ forall w' template_path customer_data out,
      fst (generate_html w' template_path sample_invoice customer_data
             [line_A; line_B]) = Ok out ->
      exists t v,
        files w' (path_text template_path) = Some t /\
        slot_values sample_invoice customer_data [line_A; line_B] = Ok v /\
        out = substitute v t /\
        s_total_amount v = format_2f (py_sum (map total [line_A; line_B])).
Proof.
  apply (C1_grand_total sample_world sample_invoice csv_path [line_A; line_B]).
  vm_compute. reflexivity.
Defined.

Example grand_total_sample :
  format_2f (grand_total [line_A; line_B]) = "25.00".
Proof. vm_compute. reflexivity. Qed.

(** C9. [generate_html] leaves the world as it found it, so a second
    invocation on the same template path, header, customer and items returns
    the same markup, or the same error, as the first. *)
Theorem C9_deterministic (w : world) (template_path : Path)
  (invoice_data customer_data : dict) (items : list line_item) :
  let first := generate_html w template_path invoice_data customer_data items in
  let second :=
    generate_html (snd first) template_path invoice_data customer_data items in
  snd first = w /\ snd second = w /\ fst second = fst first.
Proof.
  unfold generate_html.
  destruct (files w (path_text template_path)) as [t|] eqn:E; simpl;
    rewrite E; auto.
Qed.

(** ** Pagination *)

Lemma range_from_pages (fuel : nat) :
  forall k n,
    n - 10 * k <= fuel ->
    range_from fuel (10 * k) n 10
    = map (fun i => 10 * i) (seq k ((n + 9) / 10 - k)).
Proof.
  induction fuel as [|fuel IH]; intros k n Hfuel; cbn [range_from].
  - replace ((n + 9) / 10 - k) with 0
      by (zify; Z.to_euclidean_division_equations; lia).
    reflexivity.
  - destruct (10 * k <? n)%nat eqn:E.
    + apply Nat.ltb_lt in E.
      replace ((n + 9) / 10 - k) with (S ((n + 9) / 10 - S k))
        by (zify; Z.to_euclidean_division_equations; lia).
      cbn [seq map]. f_equal.
      replace (10 * k + 10) with (10 * S k) by lia.
      apply IH. lia.
    + apply Nat.ltb_ge in E.
      replace ((n + 9) / 10 - k) with 0
        by (zify; Z.to_euclidean_division_equations; lia).
      reflexivity.
Qed.

Lemma page_starts_pages (items : list line_item) :
  page_starts items
  = map (fun k => k * 10) (seq 0 ((List.length items + 9) / 10)).
Proof.
  unfold page_starts, range0, items_per_page.
  change 0 with (10 * 0) at 1.
  rewrite (range_from_pages (List.length items) 0 (List.length items))
    by lia.
  rewrite Nat.sub_0_r. apply map_ext. intros k. lia.
Qed.








Lemma page_items_length (items : list line_item) (k : nat) :
  List.length (page_items items (k * 10))
  = Nat.min ((k + 1) * 10) (List.length items) - k * 10.
Proof.
  unfold page_items, slice, items_per_page.
  rewrite length_firstn, length_skipn. lia.
Qed.




(** ** Replacement of placeholder tokens *)

#[local] Arguments Ascii.eqb : simpl never.

Lemma string_app_assoc (a b c : string) : (a ++ b) ++ c = a ++ (b ++ c).
Proof. induction a as [|x a IH]; simpl; [reflexivity | rewrite IH; reflexivity]. Qed.

Lemma prefix_cons (c d : ascii) (s t : string) :
  prefix (String c s) (String d t) = Ascii.eqb c d && prefix s t.
Proof.
  simpl. destruct (ascii_dec c d) as [->|Hne].
  - rewrite Ascii.eqb_refl. reflexivity.
  - apply Ascii.eqb_neq in Hne. rewrite Hne. reflexivity.
Qed.

Lemma prefix_length (old : string) :
  forall s, prefix old s = true -> String.length old <= String.length s.
Proof.
  induction old as [|c old IH]; intros s H; simpl; [lia|].
  destruct s as [|d s]; [discriminate H|].
  rewrite prefix_cons in H. apply andb_prop in H. destruct H as [_ H].
  apply IH in H. simpl. lia.
Qed.

Lemma prefix_app (old : string) :
  forall x z, prefix old x = true -> prefix old (x ++ z) = true.
Proof.
  induction old as [|c old IH]; intros x z H.
  - destruct (x ++ z); reflexivity.
  - destruct x as [|d x]; [discriminate H|].
    simpl append. rewrite prefix_cons in *.
    apply andb_prop in H. destruct H as [H1 H2].
    rewrite H1, (IH _ _ H2). reflexivity.
Qed.

(** A text without an opening brace cannot run past a point where one
    stands. *)
Lemma prefix_before_open (r : string) :
  contains_char "{" r = false ->
  forall x z, prefix r (x ++ String "{" z) = true ->
              String.length r <= String.length x.
Proof.
  induction r as [|c r IH]; intros Hr x z H; simpl; [lia|].
  simpl in Hr. apply orb_false_elim in Hr. destruct Hr as [Hc Hr].
  destruct x as [|d x].
  - simpl append in H. rewrite prefix_cons in H.
    rewrite Ascii.eqb_sym, Hc in H. discriminate H.
  - simpl append in H. rewrite prefix_cons in H.
    apply andb_prop in H. destruct H as [_ H].
    specialize (IH Hr x z H). simpl. lia.
Qed.

Lemma brace_free_no_open (s : string) :
  brace_free s = true -> contains_char "{" (s ++ "}}") = false.
Proof.
  induction s as [|c s IH]; simpl; intros H; [reflexivity|].
  apply andb_prop in H. destruct H as [H Hs].
  apply andb_prop in H. destruct H as [Ho _].
  rewrite (IH Hs). rewrite Ascii.eqb_sym.
  destruct (Ascii.eqb c "{"); [discriminate Ho | reflexivity].
Qed.

(** Two brace-free names followed by the closing braces agree when one is a
    prefix of the other. *)
Lemma closed_name_prefix (n1 : string) :
  forall n2 y,
    brace_free n1 = true -> brace_free n2 = true ->
    prefix (n1 ++ "}}") (n2 ++ "}}" ++ y) = true -> n1 = n2.
Proof.
  induction n1 as [|c n1 IH]; intros n2 y H1 H2 H.
  - destruct n2 as [|d n2]; [reflexivity|].
    exfalso. simpl append in H. rewrite prefix_cons in H.
    apply andb_prop in H. destruct H as [Hd _].
    apply Ascii.eqb_eq in Hd. subst d.
    cbv in H2. discriminate H2.
  - simpl in H1. apply andb_prop in H1. destruct H1 as [Hc H1].
    apply andb_prop in Hc. destruct Hc as [_ Hc].
    destruct n2 as [|d n2].
    + simpl append in H. rewrite prefix_cons in H.
      apply andb_prop in H. destruct H as [H _].
      apply Ascii.eqb_eq in H. subst c. discriminate Hc.
    + simpl append in H. rewrite prefix_cons in H.
      apply andb_prop in H. destruct H as [Hcd H].
      apply Ascii.eqb_eq in Hcd. subst d.
      simpl in H2. apply andb_prop in H2. destruct H2 as [_ H2].
      f_equal. exact (IH n2 y H1 H2 H).
Qed.

Section Tokens.

Variables (n1 n2 new b : string).
Hypothesis Hn1 : brace_free n1 = true.
Hypothesis Hn2 : brace_free n2 = true.
Hypothesis Hdiff : n1 <> n2.

(** An occurrence of one token that starts before or at another token
    ends before it. *)
Lemma token_ends_before (x : string) :
  prefix (token n1) (x ++ token n2 ++ b) = true ->
  String.length (token n1) <= String.length x.
Proof.
  unfold token. simpl append. intros H.
  destruct x as [|c1 [|c2 x]].
  - exfalso. apply Hdiff. simpl append in H. rewrite !prefix_cons in H.
    simpl in H. rewrite string_app_assoc in H.
    exact (closed_name_prefix n1 n2 b Hn1 Hn2 H).
  - exfalso. simpl append in H. rewrite !prefix_cons in H.
    apply andb_prop in H. destruct H as [_ H].
    apply andb_prop in H. destruct H as [_ H].
    pose proof (prefix_before_open _ (brace_free_no_open n1 Hn1) ""
                  (n2 ++ "}}" ++ b)) as Hlen.
    simpl append in Hlen. rewrite string_app_assoc in H.
    specialize (Hlen H). destruct n1; simpl in Hlen; lia.
  - simpl append in H. rewrite !prefix_cons in H.
    apply andb_prop in H. destruct H as [_ H].
    apply andb_prop in H. destruct H as [_ H].
    pose proof (prefix_before_open _ (brace_free_no_open n1 Hn1) x
                  (String "{" (n2 ++ "}}") ++ b)) as Hlen.
    simpl append in Hlen. specialize (Hlen H). simpl. lia.
Qed.

Lemma token_prefix_split (x : string) :
  prefix (token n1) (x ++ token n2 ++ b) = prefix (token n1) x.
Proof.
  destruct (prefix (token n1) x) eqn:E.
  - apply prefix_app. exact E.
  - destruct (prefix (token n1) (x ++ token n2 ++ b)) eqn:E'; [|reflexivity].
    pose proof (token_ends_before x E') as Hlen.
    exfalso. revert E E' Hlen. generalize (token n1), (token n2 ++ b).
    intros old rest. revert old.
    induction x as [|c x IH]; intros old E E' Hlen.
    + destruct old; [discriminate E | simpl in Hlen; lia].
    + destruct old as [|d old]; [discriminate E|].
      simpl append in E'. rewrite prefix_cons in E, E'.
      apply andb_prop in E'. destruct E' as [Hcd E'].
      rewrite Hcd in E. simpl in E, Hlen.
      apply (IH old E E'). lia.
Qed.

(** The scan passes over text without an opening brace unchanged. *)
Lemma replace_from_no_open (t : string) :
  contains_char "{" t = false ->
  replace_from (token n1) new 0 (t ++ b)
  = t ++ replace_from (token n1) new 0 b.
Proof.
  induction t as [|c t IH]; intros Ht; [reflexivity|].
  simpl in Ht. apply orb_false_elim in Ht. destruct Ht as [Hc Ht].
  simpl append. cbn [replace_from].
  unfold token at 1. simpl append. rewrite prefix_cons, Hc. simpl.
  rewrite (IH Ht). reflexivity.
Qed.

(** The scan passes over the other token unchanged. *)
Lemma token_not_at_token :
  prefix (token n1) (token n2 ++ b) = false.
Proof.
  pose proof (token_prefix_split "") as H. simpl append in H.
  simpl append. rewrite H. reflexivity.
Qed.

Lemma token_not_inside_token :
  prefix (token n1) (String "{" ((n2 ++ "}}") ++ b)) = false.
Proof.
  unfold token. simpl append. rewrite prefix_cons.
  pose proof (brace_free_no_open n2 Hn2) as Hno.
  destruct (n2 ++ "}}") as [|d r] eqn:E.
  - destruct n2; discriminate E.
  - cbn [contains_char] in Hno. apply orb_false_elim in Hno.
    destruct Hno as [Hd _].
    simpl append. rewrite prefix_cons, Hd. reflexivity.
Qed.

(** The scan passes over the other token unchanged. *)
Lemma replace_from_token :
  replace_from (token n1) new 0 (token n2 ++ b)
  = token n2 ++ replace_from (token n1) new 0 b.
Proof.
  pose proof token_not_at_token as E0.
  pose proof token_not_inside_token as E1.
  pose proof (replace_from_no_open (n2 ++ "}}")
                (brace_free_no_open n2 Hn2)) as E2.
  revert E0 E1 E2. generalize (token n1). intros old E0 E1 E2.
  unfold token in *. simpl append in *.
  cbn [replace_from]. rewrite E0. f_equal.
  cbn [replace_from]. rewrite E1. f_equal.
  exact E2.
Qed.

Lemma replace_from_split (a : string) :
  forall skip,
    skip <= String.length a ->
    replace_from (token n1) new skip (a ++ token n2 ++ b)
    = replace_from (token n1) new skip a ++ token n2 ++
      replace_from (token n1) new 0 b.
Proof.
  pose proof token_prefix_split as Hsplit.
  pose proof replace_from_token as Htoken.
  revert Hsplit Htoken. generalize (token n1), (token n2).
  intros old tok Hsplit Htoken.
  induction a as [|c a IH]; intros skip Hskip.
  - simpl in Hskip. replace skip with 0 by lia. exact Htoken.
  - change (String c a ++ tok ++ b) with (String c (a ++ tok ++ b)).
    cbn [replace_from].
    destruct skip as [|k].
    + change (String c (a ++ tok ++ b)) with (String c a ++ tok ++ b).
      rewrite Hsplit.
      destruct (prefix old (String c a)) eqn:E.
      * apply prefix_length in E. simpl in E.
        rewrite IH by lia. rewrite string_app_assoc. reflexivity.
      * rewrite IH by lia. reflexivity.
    + simpl in Hskip. apply IH. lia.
Qed.

(** Replacing one token leaves an occurrence of another token in place. *)
Lemma replace_token_split (a : string) :
  replace (token n1) new (a ++ token n2 ++ b)
  = replace (token n1) new a ++ token n2 ++ replace (token n1) new b.
Proof.
  unfold replace. unfold token at 1 3 5. simpl append.
  apply (replace_from_split a 0). lia.
Qed.

End Tokens.

Lemma replace_absent (old new : string) :
  forall t, occurs old t = false -> replace old new t = t.
Proof.
  intros t H. unfold replace.
  destruct old as [|c old].
  - destruct t; discriminate H.
  - induction t as [|d t IH]; [reflexivity|].
    cbn [occurs] in H. apply orb_false_elim in H. destruct H as [Hp Ho].
    cbn [replace_from]. rewrite Hp, (IH Ho). reflexivity.
Qed.

Lemma fold_replace_split (name : string) (kvs : list (string * string)) :
  brace_free name = true ->
  Forall (fun kv => brace_free (fst kv) = true /\ fst kv <> name) kvs ->
  forall a b,
    fold_left (fun html kv => replace (token (fst kv)) (snd kv) html) kvs
      (a ++ token name ++ b)
    = fold_left (fun html kv => replace (token (fst kv)) (snd kv) html) kvs a
      ++ token name ++
      fold_left (fun html kv => replace (token (fst kv)) (snd kv) html) kvs b.
Proof.
  intros Hname Hkvs. induction Hkvs as [|kv kvs [Hfree Hdiff] _ IH];
    intros a b; [reflexivity|].
  cbn [fold_left].
  rewrite (replace_token_split (fst kv) name (snd kv) b Hfree Hname Hdiff a).
  apply IH.
Qed.

Lemma fold_replace_absent (kvs : list (string * string)) :
  forall t,
    Forall (fun kv => occurs (token (fst kv)) t = false) kvs ->
    fold_left (fun html kv => replace (token (fst kv)) (snd kv) html) kvs t = t.
Proof.
  induction kvs as [|kv kvs IH]; intros t H; [reflexivity|].
  inversion H as [|? ? Hkv Hrest]; subst.
  cbn [fold_left]. rewrite (replace_absent _ _ _ Hkv). apply IH. exact Hrest.
Qed.

Lemma slot_names_known (v : slots) :
  map fst (slot_names v) = placeholder_names.
Proof. reflexivity. Qed.

Lemma substitute_split (v : slots) (name a b : string) :
  brace_free name = true ->
  ~ In name placeholder_names ->
  substitute v (a ++ token name ++ b)
  = substitute v a ++ token name ++ substitute v b.
Proof.
  intros Hname Hnew. apply fold_replace_split; [exact Hname|].
  apply Forall_forall. intros kv Hin.
  assert (Hk : In (fst kv) placeholder_names).
  { rewrite <- (slot_names_known v). apply in_map. exact Hin. }
  split.
  - simpl in Hk.
    repeat (destruct Hk as [<-|Hk]; [reflexivity|]). contradiction.
  - intros E. apply Hnew. rewrite <- E. exact Hk.
Qed.

Lemma substitute_absent (v : slots) (t : string) :
  (forall n, In n placeholder_names -> occurs (token n) t = false) ->
  substitute v t = t.
Proof.
  intros H. apply fold_replace_absent.
  apply Forall_forall. intros kv Hin. apply H.
  rewrite <- (slot_names_known v). apply in_map. exact Hin.
Qed.

(** C8. Composition applies the eight replacements of the full tokens
    [{{invoice_id}}], ..., [{{total_amount}}] and nothing else: a token
    [{{name}}] of the template whose name is brace-free and is not one of the
    eight stands unchanged in the markup returned, between the substituted
    texts before and after it; and a text in which none of the eight full
    tokens occurs, such as a proper prefix of a token, is left as it is. *)
Theorem C8_unknown_tokens_kept (w : world) (template_path : Path)
  (invoice_data customer_data : dict) (items : list line_item)
  (before name after : string) (v : slots) :
  files w (path_text template_path) = Some (before ++ token name ++ after) ->
  brace_free name = true ->
  ~ In name placeholder_names ->
  slot_values invoice_data customer_data items = Ok v ->
  generate_html w template_path invoice_data customer_data items
  = (Ok (substitute v before ++ token name ++ substitute v after), w)
  /\ (forall t,
         (forall n, In n placeholder_names -> occurs (token n) t = false) ->
         substitute v t = t).
Proof.
  intros Hfile Hname Hnew Hv. split.
  - unfold generate_html. rewrite Hfile, fill_template_slots, Hv.
    cbn [bind]. rewrite substitute_split by assumption. reflexivity.
  - apply substitute_absent.
Qed.

Lemma C8_unknown_tokens_kept_witness :
  exists v,
    slot_values sample_invoice sample_customer [line_A; line_B] = Ok v /\
    generate_html sample_world template_path sample_invoice sample_customer
      [line_A; line_B]
    = (Ok (substitute v "<h1>{{invoice_id}}</h1>{{tables}}<b>{{total_amount}}</b>"
           ++ "{{note}}" ++ substitute v ""),
       sample_world) /\
    substitute v "{{invoice_id {{tables}" = "{{invoice_id {{tables}".
Proof.
  eexists.
  edestruct (C8_unknown_tokens_kept sample_world template_path sample_invoice
               sample_customer [line_A; line_B]
               "<h1>{{invoice_id}}</h1>{{tables}}<b>{{total_amount}}</b>"
               "note" "") as [Hkept Hsame];
    [reflexivity | reflexivity | simpl; intuition discriminate | reflexivity |].
  split; [reflexivity|]. split; [exact Hkept|].
  apply Hsame. intros n Hn. simpl in Hn.
  repeat (destruct Hn as [<-|Hn]; [reflexivity|]). contradiction.
Defined.

Example generate_html_sample_total :
  exists out,
    fst (generate_html sample_world template_path sample_invoice
           sample_customer [line_A; line_B]) = Ok out /\
    prefix "<h1>1</h1>" out = true /\
    occurs "<b>25.00</b>{{note}}" out = true.
Proof. eexists. split; [vm_compute; reflexivity|]. split; vm_compute; reflexivity. Qed.

(** ** The flat-shape scenario end to end *)

Example flat_scenario :
  get_invoice_data [short_row; full_row; other_invoice] (VInt 1) csv_path
  = Ok sample_invoice
  /\ load_customer_data sample_world (get sample_invoice "customer_id")
     = Some sample_customer
  /\ prepare_invoice_items sample_world sample_invoice csv_path
     = Ok [line_A; line_B]
  /\ page_starts [line_A; line_B] = [0].
Proof. repeat split; vm_compute; reflexivity. Qed.

(** * Further properties *)

(** ** Pages as a partition of the items *)

Lemma chunks_concat {A : Type} (l : list A) (fuel : nat) :
  forall k,
    List.length l - 10 * k <= fuel ->
    List.concat (map (fun p => firstn 10 (skipn p l))
                     (range_from fuel (10 * k) (List.length l) 10))
    = skipn (10 * k) l.
Proof.
  induction fuel as [|fuel IH]; intros k Hfuel; cbn [range_from map List.concat].
  - symmetry. apply skipn_all2. lia.
  - destruct (10 * k <? List.length l)%nat eqn:E.
    + cbn [map List.concat].
      replace (10 * k + 10) with (10 * S k) by lia.
      rewrite IH by lia.
      replace (10 * S k) with (10 + 10 * k) by lia.
      rewrite <- skipn_skipn. apply firstn_skipn.
    + apply Nat.ltb_ge in E. symmetry. apply skipn_all2. exact E.
Qed.

Lemma page_items_chunk (items : list line_item) (p : nat) :
  page_items items p = firstn 10 (skipn p items).
Proof.
  unfold page_items, slice, items_per_page. f_equal. lia.
Qed.

Lemma page_starts_range (items : list line_item) :
  page_starts items
  = range_from (List.length items) (10 * 0) (List.length items) 10.
Proof. reflexivity. Qed.

(** X1. The pages partition the item list: laid end to end, in page order,
    they give back the items, none lost, repeated or moved. *)
Theorem X1_pages_partition (items : list line_item) :
  List.concat (map (page_items items) (page_starts items)) = items.
Proof.
  rewrite (map_ext _ _ (page_items_chunk items)).
  rewrite page_starts_range, chunks_concat by lia.
  reflexivity.
Qed.

(** X2. Every page the loop renders starts at a multiple of ten below the
    number of items and holds between one and ten items, so no page is empty
    or overfull; and an empty item list has no page and no table markup. *)
Theorem X2_pages_bounded (invoice_data customer_data : dict)
  (items : list line_item) :
  (forall p, In p (page_starts items) ->
             p mod 10 = 0 /\ p < List.length items /\
             1 <= List.length (page_items items p) <= 10) /\
  (items = [] ->
   page_starts items = [] /\
   tables_html invoice_data customer_data items = "").
Proof.
  split.
  - intros p Hp. rewrite page_starts_pages in Hp.
    apply in_map_iff in Hp. destruct Hp as (k & <- & Hk).
    apply in_seq in Hk.
    assert (Hlt : k * 10 < List.length items)
      by (zify; Z.to_euclidean_division_equations; lia).
    split; [apply Nat.Div0.mod_mul|]. split; [exact Hlt|].
    rewrite page_items_length. lia.
  - intros ->. split; reflexivity.
Qed.



(** ** Listing and assembling invoices *)

Lemma add_invoice_ids_in (data : list dict) :
  forall ids v,
    add_invoice_ids data = Ok ids -> In v ids ->
    exists row, In row data /\ lookup row "invoice_id" = Some v.
Proof.
  induction data as [|row data IH]; intros ids v H Hin; simpl in H.
  - injection H as <-. contradiction.
  - destruct (lookup row "invoice_id") as [x|] eqn:E.
    + destruct (hashable x); [|discriminate H].
      apply bind_ok in H. destruct H as (more & Hmore & H).
      injection H as <-. destruct Hin as [<-|Hin].
      * exists row. split; [left; reflexivity | exact E].
      * destruct (IH more v Hmore Hin) as (r & Hr & Hv).
        exists r. split; [right; exact Hr | exact Hv].
    + destruct (IH ids v H Hin) as (r & Hr & Hv).
      exists r. split; [right; exact Hr | exact Hv].
Qed.

Lemma collect_invoice_ids_in (data : list dict) (file_path : Path)
  (ids : list value) (v : value) :
  collect_invoice_ids data file_path = Ok ids -> In v ids ->
  exists row, In row data /\ lookup row "invoice_id" = Some v.
Proof.
  unfold collect_invoice_ids.
  destruct (String.eqb (lower (suffix file_path)) ".csv").
  - apply add_invoice_ids_in.
  - destruct (String.eqb (lower (suffix file_path)) ".json").
    + apply add_invoice_ids_in.
    + intros H. injection H as <-. contradiction.
Qed.

Lemma matches_own_id (row : dict) (v : value) :
  lookup row "invoice_id" = Some v -> matches_id "invoice_id" v row = true.
Proof.
  intros H. unfold matches_id, get. rewrite H. apply String.eqb_refl.
Qed.

(** X4. Every invoice id that [get_invoice_ids] collects can be assembled:
    for a flat file [get_invoice_data] returns a header whose items are the
    matching rows, the row that supplied the id among them; for a nested
    file it returns a record of the data whose id stringifies equal, without
    raising. *)
Theorem X4_listed_ids_assemble (data : list dict) (file_path : Path)
  (ids : list value) (v : value) :
  collect_invoice_ids data file_path = Ok ids ->
  In v ids ->
  (is_csv file_path = true ->
   exists row,
     In row (filter (matches_id "invoice_id" v) data) /\
     lookup row "invoice_id" = Some v /\
     get_invoice_data data v file_path
     = Ok [("invoice_id", v);
           ("customer_id",
            first_present "customer_id"
              (filter (matches_id "invoice_id" v) data));
           ("date",
            first_present "date" (filter (matches_id "invoice_id" v) data));
           ("items",
            VList (map VDict (filter (matches_id "invoice_id" v) data)))]) /\
  (is_csv file_path = false ->
   exists record,
     get_invoice_data data v file_path = Ok record /\
     In record data /\
     matches_id "invoice_id" v record = true).
Proof.
  intros Hids Hin.
  destruct (collect_invoice_ids_in _ _ _ _ Hids Hin) as (row & Hrow & Hv).
  pose proof (matches_own_id row v Hv) as Hm.
  split; intros Hshape.
  - exists row. split; [apply filter_In; auto|]. split; [exact Hv|].
    apply get_invoice_data_flat. exact Hshape.
  - unfold get_invoice_data. rewrite Hshape.
    destruct (find (matches_id "invoice_id" v) data) as [record|] eqn:E.
    + exists record. apply find_some in E. destruct E as [HinR HmR]. auto.
    + exfalso. apply (find_none _ _ E) in Hrow. congruence.
Qed.

Lemma X4_listed_ids_assemble_witness :
  exists record,
    get_invoice_data [other_invoice; full_row; short_row] (VStr "1") json_path
    = Ok record /\
    In record [other_invoice; full_row; short_row] /\
    matches_id "invoice_id" (VStr "1") record = true.
Proof.
  apply (X4_listed_ids_assemble [other_invoice; full_row; short_row] json_path
           [VStr "2"; VStr "1"; VStr "1"] (VStr "1")).
  - reflexivity.
  - simpl. auto.
  - reflexivity.
Defined.

(** ** Enrichment *)





Lemma load_product_data_sound (w : world) (id : value) (r : dict) :
  load_product_data w id = Some r -> matches_id "product_id" id r = true.
Proof.
  unfold load_product_data.
  destruct (scan_source "product_id" id (product_csv w)) as [c|] eqn:E1.
  - intros H. injection H as <-. exact (scan_source_sound _ _ _ _ E1).
  - destruct (scan_source "product_id" id (product_json w)) as [c|] eqn:E2;
      [|discriminate].
    intros H. injection H as <-. exact (scan_source_sound _ _ _ _ E2).
Qed.

Lemma enrich_item_shape (w : world) (item : value) (here : list line_item) :
  enrich_item w item = Ok here ->
  here = [] \/
  exists it product,
    here = [it] /\
    product_id it = raw_product_id item /\
    load_product_data w (product_id it) = Some product /\
    product <> [] /\
    name it = get_default product "name" (VStr unknown_product).
Proof.
  destruct item as [| | | | | |d]; try discriminate.
  rewrite enrich_item_dict. intros H.
  apply bind_ok in H. destruct H as (q & _ & H). cbv zeta in H.
  destruct (truthy (load_product_data w (get d "product_id"))) eqn:Ht.
  - destruct (load_product_data w (get d "product_id")) as [[|f fs]|] eqn:Hp;
      try discriminate Ht.
    apply bind_ok in H. destruct H as (unit_price & _ & H).
    apply bind_ok in H. destruct H as (qf & _ & H).
    injection H as <-. right. eexists. exists (f :: fs).
    split; [reflexivity|]. cbn [product_id name raw_product_id].
    repeat split; [exact Hp | discriminate].
  - injection H as <-. left. reflexivity.
Qed.

(** X6. Enrichment keeps the order of the raw items and invents none: the
    product ids of the items it emits are those of the raw items with some
    left out, so there are at most as many; and every item emitted names a
    product that resolves to a non-empty record whose id stringifies equal,
    from which its name is taken. *)
Theorem X6_enrichment_in_order (w : world) (raw : list value) :
  forall items,
    enrich w raw = Ok items ->
    subsequence (map product_id items) (map raw_product_id raw) /\
    List.length items <= List.length raw /\
    Forall (fun it =>
              exists product,
                load_product_data w (product_id it) = Some product /\
                product <> [] /\
                matches_id "product_id" (product_id it) product = true /\
                name it = get_default product "name" (VStr unknown_product))
           items.
Proof.
  induction raw as [|item raw IH]; intros items H; simpl in H.
  - injection H as <-. repeat split; constructor.
  - apply bind_ok in H. destruct H as (here & Hitem & H).
    apply bind_ok in H. destruct H as (more & Hrest & H).
    injection H as <-.
    destruct (IH more Hrest) as (Hsub & Hlen & Hall).
    destruct (enrich_item_shape w item here Hitem)
      as [->|(it & product & -> & Hid & Hp & Hne & Hname)].
    + simpl. repeat split;
        [apply subsequence_skip; exact Hsub | lia | exact Hall].
    + simpl. repeat split.
      * rewrite Hid. apply subsequence_take. exact Hsub.
      * lia.
      * constructor; [|exact Hall].
        exists product. repeat split; try assumption.
        exact (load_product_data_sound w _ product Hp).
Qed.

Lemma X6_enrichment_in_order_witness :
  subsequence (map product_id [line_A; line_B])
    (map raw_product_id
         [VDict item_A; VDict item_unknown; VDict item_B_no_quantity]) /\
  List.length [line_A; line_B] <= 3 /\
  Forall (fun it =>
            exists product,
              load_product_data sample_world (product_id it) = Some product /\
              product <> [] /\
              matches_id "product_id" (product_id it) product = true /\
              name it = get_default product "name" (VStr unknown_product))
         [line_A; line_B].
Proof.
  apply (X6_enrichment_in_order sample_world
           [VDict item_A; VDict item_unknown; VDict item_B_no_quantity]
           [line_A; line_B]).
  vm_compute. reflexivity.
Defined.

(** X7. The first raw item that fails stops enrichment: when the items
    before it enrich without error, the error it raises is the error of the
    whole enrichment, whatever follows, and no item is returned. *)
Theorem X7_first_error_wins (w : world) (before after : list value)
  (item : value) (done : list line_item) (e : exn) :
  enrich w before = Ok done ->
  enrich_item w item = Raise e ->
  enrich w (before ++ item :: after)%list = Raise e.
Proof.
  intros Hbefore Hitem. rewrite enrich_app, Hbefore. cbn [bind enrich].
  rewrite Hitem. reflexivity.
Qed.

Lemma X7_first_error_wins_witness :
  enrich sample_world
    [VDict item_A; VDict item_unknown; VInt 7; VDict item_bad_quantity]
  = Raise AttributeError.
Proof.
  apply (X7_first_error_wins sample_world [VDict item_A; VDict item_unknown]
           [VDict item_bad_quantity] (VInt 7) [line_A] AttributeError).
  - vm_compute. reflexivity.
  - reflexivity.
Defined.

(** ** Resolution *)

Lemma find_none_iff {A : Type} (f : A -> bool) (l : list A) :
  find f l = None <-> forall x, In x l -> f x = false.
Proof.
  split.
  - apply find_none.
  - induction l as [|y l IH]; intros H; simpl; [reflexivity|].
    rewrite (H y (or_introl eq_refl)). apply IH.
    intros x Hx. apply H. right. exact Hx.
Qed.

Lemma scan_source_none_iff (key : string) (id : value)
  (source : option (list dict)) :
  scan_source key id source = None <->
  forall rows, source = Some rows ->
               forall r, In r rows -> matches_id key id r = false.
Proof.
  destruct source as [rows|]; simpl.
  - rewrite find_none_iff. split.
    + intros H rows' E. injection E as <-. exact H.
    + intros H. apply (H rows eq_refl).
  - split; [intros _ rows E; discriminate E | reflexivity].
Qed.

(** X8. Resolution returns [None] exactly when no record of any existing
    source has an id that stringifies equal to the requested one, for
    customers and for products alike; a missing source file counts as a
    source without records. *)
Theorem X8_not_found_iff (w : world) (id : value) :
  (load_customer_data w id = None <->
   (forall rows, customer_csv w = Some rows ->
                 forall r, In r rows -> matches_id "customer_id" id r = false) /\
   (forall rows, customer_json w = Some rows ->
                 forall r, In r rows -> matches_id "customer_id" id r = false)) /\
  (load_product_data w id = None <->
   (forall rows, product_csv w = Some rows ->
                 forall r, In r rows -> matches_id "product_id" id r = false) /\
   (forall rows, product_json w = Some rows ->
                 forall r, In r rows -> matches_id "product_id" id r = false)).
Proof.
  unfold load_customer_data, load_product_data.
  split; rewrite <- !scan_source_none_iff.
  - destruct (scan_source "customer_id" id (customer_csv w));
      destruct (scan_source "customer_id" id (customer_json w));
      split; try tauto; try discriminate;
      intros [H1 H2]; discriminate.
  - destruct (scan_source "product_id" id (product_csv w));
      destruct (scan_source "product_id" id (product_json w));
      split; try tauto; try discriminate;
      intros [H1 H2]; discriminate.
Qed.

Lemma to_int_not_nil (z : Z) :
  Z.to_int z <> Decimal.Pos Decimal.Nil /\
  Z.to_int z <> Decimal.Neg Decimal.Nil.
Proof.
  split; intros E; pose proof (DecimalZ.of_to z) as H; rewrite E in H;
    simpl in H; subst z; discriminate E.
Qed.

Lemma str_of_Z_inj (a b : Z) : str_of_Z a = str_of_Z b -> a = b.
Proof.
  unfold str_of_Z. intros H.
  destruct (to_int_not_nil a) as [Ha1 Ha2].
  destruct (to_int_not_nil b) as [Hb1 Hb2].
  pose proof (NilZero.isi (Z.to_int a) Ha1 Ha2) as Ia.
  pose proof (NilZero.isi (Z.to_int b) Hb1 Hb2) as Ib.
  rewrite H in Ia. rewrite Ia in Ib. injection Ib as Hab.
  apply DecimalZ.to_int_inj. exact Hab.
Qed.

(** X9. Matching by stringified id does not confuse integers: a record
    whose id is the integer [b] matches the requested integer [a] exactly
    when [a = b], and a record whose id is the decimal text of [a] matches
    the integer [a] as well. *)
Theorem X9_integer_ids (key : string) (row : dict) (a b : Z) :
  (get row key = VInt b -> (matches_id key (VInt a) row = true <-> a = b)) /\
  (get row key = VStr (str_of_Z a) -> matches_id key (VInt a) row = true).
Proof.
  unfold matches_id. split; intros ->; cbn [py_str py_repr].
  - rewrite String.eqb_eq. split.
    + intros H. symmetry. apply str_of_Z_inj. exact H.
    + intros ->. reflexivity.
  - apply String.eqb_refl.
Qed.

Lemma X9_integer_ids_witness :
  matches_id "customer_id" (VInt 9) [("customer_id", VInt 9)] = true
  /\ matches_id "customer_id" (VInt 9) [("customer_id", VStr "9")] = true.
Proof.
  split.
  - apply (proj1 (X9_integer_ids "customer_id" [("customer_id", VInt 9)] 9 9));
      reflexivity.
  - apply (proj2 (X9_integer_ids "customer_id" [("customer_id", VStr "9")] 9 9)).
    reflexivity.
Defined.

(** ** Errors of the composition *)

Lemma as_str_text_field (customer_data : dict) (key : string) :
  (text_field customer_data key = true ->
   exists s, as_str (get_default customer_data key (VStr "")) = Ok s) /\
  (text_field customer_data key = false ->
   as_str (get_default customer_data key (VStr "")) = Raise TypeError).
Proof.
  unfold text_field, get_default.
  destruct (lookup customer_data key) as [[| | | | | |]|]; simpl;
    split; intros H; try discriminate H; eauto.
Qed.

(** X10. [generate_html] returns markup exactly when the template file
    exists and each of the customer's name, email, phone and address is
    absent or a [str]: a missing template raises [FileNotFoundError], and a
    field of another type (a number, [None]) raises [TypeError] whether or
    not the template uses its placeholder. *)
Theorem X10_generate_html_errors (w : world) (template_path : Path)
  (invoice_data customer_data : dict) (items : list line_item) :
  (files w (path_text template_path) = None ->
   fst (generate_html w template_path invoice_data customer_data items)
   = Raise FileNotFoundError) /\
  (forall t,
      files w (path_text template_path) = Some t ->
      (forallb (text_field customer_data) ["name"; "email"; "phone"; "address"]
       = true ->
       exists v,
         slot_values invoice_data customer_data items = Ok v /\
         fst (generate_html w template_path invoice_data customer_data items)
         = Ok (substitute v t)) /\
      (forallb (text_field customer_data) ["name"; "email"; "phone"; "address"]
       = false ->
       fst (generate_html w template_path invoice_data customer_data items)
       = Raise TypeError)).
Proof.
  unfold generate_html. split.
  - intros ->. reflexivity.
  - intros t ->. cbn [fst]. rewrite fill_template_slots.
    unfold slot_values. cbn [forallb].
    destruct (as_str_text_field customer_data "name") as [N1 N0].
    destruct (as_str_text_field customer_data "email") as [E1 E0].
    destruct (as_str_text_field customer_data "phone") as [P1 P0].
    destruct (as_str_text_field customer_data "address") as [A1 A0].
    destruct (text_field customer_data "name");
      [destruct (N1 eq_refl) as [n ->] | rewrite (N0 eq_refl)]; cbn [bind andb];
      [|split; [discriminate | reflexivity]].
    destruct (text_field customer_data "email");
      [destruct (E1 eq_refl) as [e ->] | rewrite (E0 eq_refl)]; cbn [bind andb];
      [|split; [discriminate | reflexivity]].
    destruct (text_field customer_data "phone");
      [destruct (P1 eq_refl) as [p ->] | rewrite (P0 eq_refl)]; cbn [bind andb];
      [|split; [discriminate | reflexivity]].
    destruct (text_field customer_data "address");
      [destruct (A1 eq_refl) as [a ->] | rewrite (A0 eq_refl)]; cbn [bind andb];
      [|split; [discriminate | reflexivity]].
    split; [|discriminate]. intros _. eexists. split; reflexivity.
Qed.

Lemma X10_generate_html_errors_witness :
  fst (generate_html sample_world template_path sample_invoice
         numeric_phone_customer [line_A; line_B])
  = Raise TypeError.
Proof.
  apply (proj2 (X10_generate_html_errors sample_world template_path
                  sample_invoice numeric_phone_customer [line_A; line_B])
           "<h1>{{invoice_id}}</h1>{{tables}}<b>{{total_amount}}</b>{{note}}");
    reflexivity.
Defined.

(** ** The run after the selections *)

Lemma load_customer_data_sound (w : world) (id : value) (r : dict) :
  load_customer_data w id = Some r -> matches_id "customer_id" id r = true.
Proof.
  unfold load_customer_data.
  destruct (scan_source "customer_id" id (customer_csv w)) as [c|] eqn:E1.
  - intros H. injection H as <-. exact (scan_source_sound _ _ _ _ E1).
  - destruct (scan_source "customer_id" id (customer_json w)) as [c|] eqn:E2;
      [|discriminate].
    intros H. injection H as <-. exact (scan_source_sound _ _ _ _ E2).
Qed.

(** X11. When [run] reaches [generate_pdf], everything it needs was found:
    the invoice was assembled, its customer id is truthy and resolves to a
    non-empty customer record with that id, enrichment raised nothing and
    emitted at least one item, the template was read, the markup is the
    template with the eight placeholders substituted from these data, and
    the file is named [invoice_<id>.pdf]. *)
Theorem X11_pdf_requested (w : world) (data : list dict) (id : value)
  (data_file template : Path) (html_content output_filename : string) :
  run_generation w data id data_file template
  = PdfRequested html_content output_filename ->
  exists invoice_data customer items t v,
    get_invoice_data data id data_file = Ok invoice_data /\
    py_bool (get invoice_data "customer_id") = true /\
    load_customer_data w (get invoice_data "customer_id") = Some customer /\
    customer <> [] /\
    matches_id "customer_id" (get invoice_data "customer_id") customer = true /\
    prepare_invoice_items w invoice_data data_file = Ok items /\
    items <> [] /\
    files w (path_text template) = Some t /\
    slot_values invoice_data customer items = Ok v /\
    html_content = substitute v t /\
    output_filename = "invoice_" ++ py_str id ++ ".pdf".
Proof.
  unfold run_generation.
  destruct (get_invoice_data data id data_file) as [inv|e] eqn:Einv;
    [|discriminate].
  cbv zeta.
  destruct (py_bool (get inv "customer_id")) eqn:Ecid; [|discriminate].
  cbn [negb].
  destruct (load_customer_data w (get inv "customer_id")) as [[|f fs]|] eqn:Ec;
    try discriminate.
  cbn [truthy negb].
  destruct (prepare_invoice_items w inv data_file) as [[|it items]|e] eqn:Ei;
    try discriminate.
  destruct (fst (generate_html w template inv (f :: fs) (it :: items)))
    as [out|e] eqn:Eh; [|discriminate].
  intros H. injection H as <- <-.
  apply generate_html_ok in Eh. destruct Eh as (t & v & Ht & Hv & ->).
  exists inv, (f :: fs), (it :: items), t, v.
  repeat split; try assumption; try discriminate.
  exact (load_customer_data_sound _ _ _ Ec).
Qed.

Lemma X11_pdf_requested_witness :
  exists invoice_data customer items t v,
    get_invoice_data [short_row; full_row; other_invoice] (VInt 1) csv_path
    = Ok invoice_data /\
    py_bool (get invoice_data "customer_id") = true /\
    load_customer_data sample_world (get invoice_data "customer_id")
    = Some customer /\
    customer <> [] /\
    matches_id "customer_id" (get invoice_data "customer_id") customer = true /\
    prepare_invoice_items sample_world invoice_data csv_path = Ok items /\
    items <> [] /\
    files sample_world (path_text template_path) = Some t /\
    slot_values invoice_data customer items = Ok v /\
    substitute
      {| s_invoice_id := "1"; s_invoice_date := "2024-01-01";
         s_customer_name := "Flat"; s_customer_email := "";
         s_customer_phone := ""; s_customer_address := "";
         s_tables := tables_html sample_invoice sample_customer [line_A; line_B];
         s_total_amount := "25.00" |}
      "<h1>{{invoice_id}}</h1>{{tables}}<b>{{total_amount}}</b>{{note}}"
    = substitute v t /\
    "invoice_1.pdf" = "invoice_" ++ py_str (VInt 1) ++ ".pdf".
Proof.
  apply (X11_pdf_requested sample_world [short_row; full_row; other_invoice]
           (VInt 1) csv_path template_path).
  vm_compute. reflexivity.
Defined.



(** X13. A customer id that is falsy (the integer 0, the empty text, 0.0,
    [False], [None]) is reported as missing before any lookup, so an invoice
    of a customer whose id is 0 is never rendered, even when that customer
    is in the reference data. *)
Theorem X13_falsy_customer_id (w : world) (data : list dict) (id : value)
  (data_file template : Path) (invoice_data : dict) :
  get_invoice_data data id data_file = Ok invoice_data ->
  py_bool (get invoice_data "customer_id") = false ->
  run_generation w data id data_file template = CustomerIdMissing.
Proof.
  intros Hinv Hcid. unfold run_generation. rewrite Hinv. cbv zeta.
  rewrite Hcid. reflexivity.
Qed.

Lemma X13_falsy_customer_id_witness :
  load_customer_data zero_world (VInt 0)
  = Some [("customer_id", VInt 0); ("name", VStr "Zero")]
  /\ run_generation zero_world [zero_invoice] (VInt 5) json_path template_path
     = CustomerIdMissing.
Proof.
  split; [reflexivity|].
  apply (X13_falsy_customer_id zero_world [zero_invoice] (VInt 5) json_path
           template_path zero_invoice); reflexivity.
Defined.

Lemma run_generation_flat (w : world) (data : list dict) (id : value)
  (data_file template : Path) (customer : dict) :
  is_csv data_file = true ->
  let rows := filter (matches_id "invoice_id" id) data in
  let customer_id := first_present "customer_id" rows in
  py_bool customer_id = true ->
  load_customer_data w customer_id = Some customer ->
  customer <> [] ->
  run_generation w data id data_file template
  = match enrich w (map VDict rows) with
    | Raise e => Uncaught e
    | Ok [] => NoItems
    | Ok items =>
        match fst (generate_html w template
                     [("invoice_id", id); ("customer_id", customer_id);
                      ("date", first_present "date" rows);
                      ("items", VList (map VDict rows))]
                     customer items) with
        | Raise e => HtmlError e
        | Ok html_content =>
            PdfRequested html_content ("invoice_" ++ py_str id ++ ".pdf")
        end
    end.
Proof.
  intros Hcsv rows customer_id Hcid Hc Hne. unfold run_generation.
  rewrite (get_invoice_data_flat _ _ _ Hcsv). fold rows. fold customer_id.
  cbv zeta.
  change (get [("invoice_id", id); ("customer_id", customer_id);
               ("date", first_present "date" rows);
               ("items", VList (map VDict rows))] "customer_id")
    with customer_id.
  rewrite Hcid, Hc. destruct customer as [|f fs]; [congruence|].
  cbn [negb truthy].
  replace (prepare_invoice_items w
             [("invoice_id", id); ("customer_id", customer_id);
              ("date", first_present "date" rows);
              ("items", VList (map VDict rows))] data_file)
    with (enrich w (map VDict rows)); [reflexivity|].
  unfold prepare_invoice_items. rewrite Hcsv. reflexivity.
Qed.

Lemma enrich_unresolved (w : world) (rows : list dict) :
  Forall (fun row =>
            (exists q, py_int (get_default row "quantity" (VInt 1)) = Ok q) /\
            truthy (load_product_data w (get row "product_id")) = false)
         rows ->
  enrich w (map VDict rows) = Ok [].
Proof.
  induction 1 as [|row rows [[q Hq] Hp] _ IH]; [reflexivity|].
  cbn [map enrich]. rewrite enrich_item_dict, Hq. cbn [bind]. cbv zeta.
  rewrite Hp. cbn [bind]. rewrite IH. reflexivity.
Qed.

(** X14. [run] does not catch the errors of enrichment: for a flat file
    whose customer resolves, a matching row whose quantity [int] rejects,
    after rows that enrich without error, makes [run] end with that
    exception uncaught instead of a printed message, and nothing is
    rendered. *)
Theorem X14_enrichment_error_uncaught (w : world) (data : list dict)
  (id : value) (data_file template : Path) (customer : dict)
  (before after : list dict) (row : dict) (done : list line_item) (e : exn) :
  is_csv data_file = true ->
  py_bool (first_present "customer_id"
             (filter (matches_id "invoice_id" id) data)) = true ->
  load_customer_data w
    (first_present "customer_id" (filter (matches_id "invoice_id" id) data))
  = Some customer ->
  customer <> [] ->
  filter (matches_id "invoice_id" id) data = (before ++ row :: after)%list ->
  enrich w (map VDict before) = Ok done ->
  py_int (get_default row "quantity" (VInt 1)) = Raise e ->
  run_generation w data id data_file template = Uncaught e.
Proof.
  intros Hcsv Hcid Hc Hne Hrows Hbefore Hq.
  rewrite (run_generation_flat w data id data_file template customer
             Hcsv Hcid Hc Hne).
  rewrite Hrows, map_app.
  change (map VDict (row :: after)) with (VDict row :: map VDict after).
  unfold dict in *. rewrite enrich_app, Hbefore.
  change (enrich w (VDict row :: map VDict after))
    with (here <- enrich_item w (VDict row) ;;
          more <- enrich w (map VDict after) ;; Ok (here ++ more)%list).
  rewrite enrich_item_dict, Hq. reflexivity.
Qed.

Lemma X14_enrichment_error_uncaught_witness :
  run_generation sample_world [full_row; other_invoice; bad_row; short_row]
    (VInt 1) csv_path template_path
  = Uncaught ValueError.
Proof.
  apply (X14_enrichment_error_uncaught sample_world
           [full_row; other_invoice; bad_row; short_row] (VInt 1) csv_path
           template_path sample_customer [full_row] [short_row] bad_row
           [line_B] ValueError);
    try reflexivity; try discriminate.
Defined.

(** X15. An invoice none of whose products resolves is not rendered: for a
    flat file whose customer resolves, when every matching row has a
    quantity [int] accepts and a product that resolves to nothing (or to the
    empty record), [run] reports that the invoice has no items. *)
Theorem X15_no_items (w : world) (data : list dict) (id : value)
  (data_file template : Path) (customer : dict) :
  is_csv data_file = true ->
  py_bool (first_present "customer_id"
             (filter (matches_id "invoice_id" id) data)) = true ->
  load_customer_data w
    (first_present "customer_id" (filter (matches_id "invoice_id" id) data))
  = Some customer ->
  customer <> [] ->
  Forall (fun row =>
            (exists q, py_int (get_default row "quantity" (VInt 1)) = Ok q) /\
            truthy (load_product_data w (get row "product_id")) = false)
         (filter (matches_id "invoice_id" id) data) ->
  run_generation w data id data_file template = NoItems.
Proof.
  intros Hcsv Hcid Hc Hne Hall.
  rewrite (run_generation_flat w data id data_file template customer
             Hcsv Hcid Hc Hne).
  rewrite (enrich_unresolved w _ Hall). reflexivity.
Qed.

Lemma X15_no_items_witness :
  run_generation sample_world [other_invoice; unknown_row] (VInt 3) csv_path
    template_path
  = NoItems.
Proof.
  apply (X15_no_items sample_world [other_invoice; unknown_row] (VInt 3)
           csv_path template_path sample_customer);
    try reflexivity; try discriminate.
  repeat constructor. exists 1%Z. reflexivity.
Defined.

(** ** Substitution is sequential *)

Lemma prefix_refl_app (old rest : string) : prefix old (old ++ rest) = true.
Proof.
  induction old as [|c old IH]; [destruct rest; reflexivity|].
  simpl append. rewrite prefix_cons, Ascii.eqb_refl. exact IH.
Qed.

Lemma replace_from_skip (old new t rest : string) :
  replace_from old new (String.length t) (t ++ rest)
  = replace_from old new 0 rest.
Proof.
  induction t as [|c t IH]; [destruct rest; reflexivity|]. exact IH.
Qed.

Lemma replace_from_plain (n new t : string) :
  contains_char "{" t = false -> replace_from (token n) new 0 t = t.
Proof.
  intros Ht.
  pose proof (replace_from_no_open n new "" t Ht) as H.
  assert (E : forall s, s ++ "" = s).
  { induction s as [|c s IH]; simpl; [reflexivity | rewrite IH; reflexivity]. }
  rewrite E in H. rewrite H. simpl. apply E.
Qed.

(** Replacing a token that stands between two texts without an opening
    brace puts the new text in its place. *)
Lemma replace_at_token (n new a b : string) :
  contains_char "{" a = false -> contains_char "{" b = false ->
  replace (token n) new (a ++ token n ++ b) = a ++ new ++ b.
Proof.
  intros Ha Hb.
  assert (Hr : replace (token n) new (a ++ token n ++ b)
               = replace_from (token n) new 0 (a ++ token n ++ b))
    by reflexivity.
  rewrite Hr, (replace_from_no_open n new (token n ++ b) a Ha). f_equal.
  pose proof (prefix_refl_app (token n) b) as Hp.
  pose proof (replace_from_skip (token n) new (n ++ "}}") b) as Hs.
  pose proof (replace_from_plain n new b Hb) as Hb'.
  revert Hp Hs Hb'. unfold token. simpl append. intros Hp Hs Hb'.
  cbn [replace_from]. rewrite Hp. f_equal.
  cbn [String.length Nat.sub]. rewrite Hs. exact Hb'.
Qed.

Lemma replace_other_token (n1 n2 new a b : string) :
  brace_free n1 = true -> brace_free n2 = true -> n1 <> n2 ->
  contains_char "{" a = false -> contains_char "{" b = false ->
  replace (token n1) new (a ++ token n2 ++ b) = a ++ token n2 ++ b.
Proof.
  intros H1 H2 Hd Ha Hb.
  rewrite (replace_token_split n1 n2 new b H1 H2 Hd a).
  assert (Hr : forall t, replace (token n1) new t
                         = replace_from (token n1) new 0 t) by reflexivity.
  rewrite !Hr, !replace_from_plain by assumption. reflexivity.
Qed.

(** X16. The eight replacements are applied one after the other, each to
    the result of the one before, so substituted data is scanned again: a
    customer whose name is the text [{{total_amount}}] gets the formatted
    grand total printed wherever the template has [{{customer_name}}]. *)
Theorem X16_substituted_text_rescanned (w : world) (template_path : Path)
  (invoice_data customer_data : dict) (items : list line_item)
  (before after : string) (v : slots) :
  files w (path_text template_path)
  = Some (before ++ "{{customer_name}}" ++ after) ->
  contains_char "{" before = false ->
  contains_char "{" after = false ->
  slot_values invoice_data customer_data items = Ok v ->
  s_customer_name v = "{{total_amount}}" ->
  generate_html w template_path invoice_data customer_data items
  = (Ok (before ++ format_2f (grand_total items) ++ after), w).
Proof.
  intros Hfile Ha Hb Hv Hname.
  unfold generate_html. rewrite Hfile, fill_template_slots, Hv. cbn [bind].
  destruct (slot_values_total _ _ _ _ Hv) as [<- _].
  do 2 f_equal. unfold substitute, slot_names. cbn [fold_left fst snd].
  change "{{customer_name}}" with (token "customer_name").
  rewrite (replace_other_token "invoice_id" "customer_name")
    by (assumption || reflexivity || discriminate).
  rewrite (replace_other_token "invoice_date" "customer_name")
    by (assumption || reflexivity || discriminate).
  rewrite replace_at_token by assumption. rewrite Hname.
  change "{{total_amount}}" with (token "total_amount").
  rewrite (replace_other_token "customer_email" "total_amount")
    by (assumption || reflexivity || discriminate).
  rewrite (replace_other_token "customer_phone" "total_amount")
    by (assumption || reflexivity || discriminate).
  rewrite (replace_other_token "customer_address" "total_amount")
    by (assumption || reflexivity || discriminate).
  rewrite (replace_other_token "tables" "total_amount")
    by (assumption || reflexivity || discriminate).
  apply replace_at_token; assumption.
Qed.

Lemma X16_substituted_text_rescanned_witness :
  generate_html letter_world letter_path sample_invoice
    placeholder_named_customer [line_A; line_B]
  = (Ok "Dear 25.00!", letter_world).
Proof.
  rewrite (X16_substituted_text_rescanned letter_world letter_path
             sample_invoice placeholder_named_customer [line_A; line_B]
             "Dear " "!" _ eq_refl eq_refl eq_refl eq_refl eq_refl).
  vm_compute. reflexivity.
Defined.
